(** * hc-hermes: a shallow embedding of the Python client

    The development follows the layout of [python-client/src/hc_hermes]:
    - [Py]          the fragment of Python's built-in behaviour the client relies on
                    (string methods, dictionaries, keyword-argument calls);
    - [Exceptions]  [exceptions.py], the error taxonomy and its constructors;
    - [Config]      [config.py], [HermesConfig] and [get_api_url];
    - [Models]      [models.py], the pydantic models and their validation;
    - [HttpClient]  [http_client.py], [AsyncHTTPClient.request] with its retry loop;
    - [ClientAsync] [client_async.py], [AsyncDocumentsAPI.update];
    - [Utils]       [utils.py], the frontmatter template and parser.

    Definitions come first; the statements about them are at the end of the file. *)

From Stdlib Require Import String Ascii List ZArith QArith Bool Lia Arith.
From Stdlib Require Import DecimalString.
From Equations Require Import Equations.
Import ListNotations.

Set Warnings "-register-all".

Local Open Scope string_scope.
Local Open Scope Z_scope.

(* ===================================================================== *)
(** * Python built-ins *)
(* ===================================================================== *)

Module Py.

(** ** Strings.  A [str] is modelled as a [string] of ASCII characters. *)

Fixpoint mem_char (c : ascii) (chars : string) : bool :=
  match chars with
  | EmptyString => false
  | String d rest => Ascii.eqb c d || mem_char c rest
  end.

(** [s.lstrip(chars)]: drop the longest prefix made of characters of [chars]. *)
Fixpoint lstrip (chars s : string) : string :=
  match s with
  | EmptyString => EmptyString
  | String c rest => if mem_char c chars then lstrip chars rest else s
  end.

(** [s.rstrip(chars)]: drop the longest suffix made of characters of [chars]. *)
Fixpoint rstrip (chars s : string) : string :=
  match s with
  | EmptyString => EmptyString
  | String c rest =>
      match rstrip chars rest with
      | EmptyString => if mem_char c chars then EmptyString else String c EmptyString
      | r => String c r
      end
  end.

(** The characters [str.strip()] removes when called without argument
    (ASCII whitespace: space, tab, line feed, vertical tab, form feed,
    carriage return). *)
Definition whitespace : string :=
  String (ascii_of_nat 32) (String (ascii_of_nat 9) (String (ascii_of_nat 10)
    (String (ascii_of_nat 11) (String (ascii_of_nat 12)
      (String (ascii_of_nat 13) EmptyString))))).

Definition strip (s : string) : string := lstrip whitespace (rstrip whitespace s).

(** [str.upper()] on ASCII text: [a]..[z] are mapped to [A]..[Z], every
    other character is kept. *)
Definition upper_char (c : ascii) : ascii :=
  let n := nat_of_ascii c in
  if ((97 <=? n) && (n <=? 122))%nat then ascii_of_nat (n - 32) else c.

Fixpoint upper (s : string) : string :=
  match s with
  | EmptyString => EmptyString
  | String c rest => String (upper_char c) (upper rest)
  end.

(** [x in xs] for a collection of strings. *)
Fixpoint str_in (x : string) (xs : list string) : bool :=
  match xs with
  | [] => false
  | y :: rest => String.eqb x y || str_in x rest
  end.

(** [str(n)] for an [int]. *)
Definition str_of_int (n : Z) : string := NilZero.string_of_int (Z.to_int n).

(** ** Values.  The values that travel through the client are the ones a
    JSON document decodes to: [None], booleans, integers, floating-point
    numbers (kept as the rational they denote), strings, lists and
    dictionaries.  A [dict] keeps its insertion order; keys are unique in
    Python, and [dict_get] returns the first binding. *)

Inductive pyval : Type :=
| PyNone
| PyBool (b : bool)
| PyInt (n : Z)
| PyFloat (q : Q)
| PyStr (s : string)
| PyList (items : list pyval)
| PyDict (items : list (string * pyval)).

Definition dict : Type := list (string * pyval).

Fixpoint dict_get (k : string) (d : dict) : option pyval :=
  match d with
  | [] => None
  | (k', v) :: rest => if String.eqb k k' then Some v else dict_get k rest
  end.

Definition dict_has (k : string) (d : dict) : bool :=
  match dict_get k d with Some _ => true | None => false end.

(** [d.get(k, default)] *)
Definition dict_get_default (k : string) (default : pyval) (d : dict) : pyval :=
  match dict_get k d with Some v => v | None => default end.

Definition keys (d : dict) : list string := map fst d.

Definition is_some {A} (a : option A) : bool :=
  match a with Some _ => true | None => false end.

Definition is_none (v : pyval) : bool :=
  match v with PyNone => true | _ => false end.

(** Truth value of an object, as tested by [if x:] and [x or y]. *)
Definition truthy (v : pyval) : bool :=
  match v with
  | PyNone => false
  | PyBool b => b
  | PyInt n => negb (n =? 0)
  | PyFloat q => negb (Qeq_bool q 0)
  | PyStr s => negb (String.eqb s "")
  | PyList l => match l with [] => false | _ => true end
  | PyDict d => match d with [] => false | _ => true end
  end.

Definition str_truthy (s : string) : bool := negb (String.eqb s "").

(** [a or b] *)
Definition py_or (a b : pyval) : pyval := if truthy a then a else b.

(** [d.update(other)]: bindings of [other] replace those of [d] in place,
    new keys are appended. *)
Fixpoint dict_set {V} (k : string) (v : V) (d : list (string * V))
  : list (string * V) :=
  match d with
  | [] => [(k, v)]
  | (k', v') :: rest =>
      if String.eqb k k' then (k, v) :: rest else (k', v') :: dict_set k v rest
  end.

Definition dict_update {V} (d other : list (string * V)) : list (string * V) :=
  fold_left (fun acc kv => dict_set (fst kv) (snd kv) acc) other d.

Definition dict_remove (k : string) (d : dict) : dict :=
  filter (fun kv => negb (String.eqb k (fst kv))) d.

(** [d.get(k)] for a dictionary with values of any type. *)
Fixpoint lookup {V} (k : string) (d : list (string * V)) : option V :=
  match d with
  | [] => None
  | (k', v) :: rest => if String.eqb k k' then Some v else lookup k rest
  end.

(** ** Calls with keyword arguments.  In [f(k1=v1, ..., **kw)] a key of
    [kw] that repeats one of the explicit keywords makes the call itself
    fail with a [TypeError], before the body of [f] runs.  The result is
    the offending keyword, or the merged keyword arguments. *)
Fixpoint first_duplicate (explicit : list string) (kw : dict) : option string :=
  match kw with
  | [] => None
  | (k, _) :: rest =>
      if str_in k explicit then Some k else first_duplicate explicit rest
  end.

Definition call_keywords (explicit kw : dict) : string + dict :=
  match first_duplicate (keys explicit) kw with
  | Some k => inl k
  | None => inr (explicit ++ kw)%list
  end.

(** ** [int(s)] for a string: optional surrounding whitespace, an optional
    sign, then decimal digits, where single underscores may separate
    digits.  [None] stands for the [ValueError]. *)
Definition digit_of (c : ascii) : option Z :=
  let n := nat_of_ascii c in
  if ((48 <=? n) && (n <=? 57))%nat then Some (Z.of_nat (n - 48)) else None.

Fixpoint digits_value (s : string) (acc : Z) (after_digit : bool) : option Z :=
  match s with
  | EmptyString => if after_digit then Some acc else None
  | String c rest =>
      match digit_of c with
      | Some d => digits_value rest (acc * 10 + d) true
      | None =>
          if Ascii.eqb c "_" && after_digit
          then digits_value rest acc false
          else None
      end
  end.

Definition int_of_str (s : string) : option Z :=
  match strip s with
  | String "-" rest => option_map Z.opp (digits_value rest 0 false)
  | String "+" rest => digits_value rest 0 false
  | body => digits_value body 0 false
  end.

End Py.

(* ===================================================================== *)
(** * pydantic: the outcome of validation *)
(* ===================================================================== *)

Module Pydantic.
Import Py.

(** One entry of a [ValidationError]: the path of the value at fault and
    the kind of error. *)
Record ErrorDetails : Type := mkErr { loc : list string; err_type : string }.

(** The outcome of building or validating a model: the instance, or the
    [ValidationError] with the errors of every field. *)
Inductive validated (A : Type) : Type :=
| Valid (a : A)
| ValidationError (errors : list ErrorDetails).
Arguments Valid {A} a.
Arguments ValidationError {A} errors.

Definition is_error {A} (r : validated A) : bool :=
  match r with Valid _ => false | ValidationError _ => true end.

Definition validator (A : Type) : Type := pyval -> validated A.

Definition fail {A} (kind : string) : validated A :=
  ValidationError [mkErr [] kind].

(** Errors found inside the value at [key] are reported below [key]. *)
Definition within {A} (key : string) (r : validated A) : validated A :=
  match r with
  | Valid a => Valid a
  | ValidationError es =>
      ValidationError (map (fun e => mkErr (key :: loc e) (err_type e)) es)
  end.

Definition fmap {A B} (f : A -> B) (r : validated A) : validated B :=
  match r with
  | Valid a => Valid (f a)
  | ValidationError es => ValidationError es
  end.

(** Fields are validated independently and their errors are collected. *)
Definition ap {A B} (f : validated (A -> B)) (x : validated A) : validated B :=
  match f, x with
  | Valid g, Valid a => Valid (g a)
  | Valid _, ValidationError es => ValidationError es
  | ValidationError es, Valid _ => ValidationError es
  | ValidationError es, ValidationError es' => ValidationError (es ++ es')
  end.

(** A field with a default: validated when its key is present. *)
Definition field {A} (key : string) (V : validator A) (default : A) (d : dict)
  : validated A :=
  match dict_get key d with
  | Some v => within key (V v)
  | None => Valid default
  end.

(** A field without default. *)
Definition required {A} (key : string) (V : validator A) (d : dict)
  : validated A :=
  match dict_get key d with
  | Some v => within key (V v)
  | None => ValidationError [mkErr [key] "missing"]
  end.

(** [T | None] *)
Definition opt {A} (V : validator A) : validator (option A) :=
  fun v =>
    match v with
    | PyNone => Valid None
    | _ => fmap Some (V v)
    end.

(** [T | None = None] *)
Definition optional {A} (key : string) (V : validator A) (d : dict)
  : validated (option A) :=
  field key (opt V) None d.

(** [str]: only a string is a valid string. *)
Definition validate_str : validator string :=
  fun v => match v with PyStr s => Valid s | _ => fail "string_type" end.

Fixpoint validate_items {A} (V : validator A) (index : nat) (items : list pyval)
  : validated (list A) :=
  match items with
  | [] => Valid []
  | v :: more =>
      ap (ap (Valid cons) (within (str_of_int (Z.of_nat index)) (V v)))
         (validate_items V (S index) more)
  end.

(** [list[T]] *)
Definition validate_list {A} (V : validator A) : validator (list A) :=
  fun v =>
    match v with
    | PyList items => validate_items V 0 items
    | _ => fail "list_type"
    end.

(** [dict[str, Any]] *)
Definition validate_dict : validator dict :=
  fun v => match v with PyDict d => Valid d | _ => fail "dict_type" end.

(** A [UUID], as its 128-bit number; a [datetime], as microseconds since
    the epoch with its UTC offset in minutes when it has one. *)
Record UUID : Type := mkUUID { uuid_int : N }.
Record datetime : Type := mkDatetime { epoch_us : Z; utc_offset : option Z }.

(** What pydantic does beyond the declarations of [models.py]: the
    coercion of a value that is not already of the field's type (a
    numeric string or a whole float for an [int], [0] and [1] for a
    [bool], ...) and the parsing of identifiers and timestamps.  The models
    are stated for any such behaviour. *)
Class Core : Type := {
  lax_int : validator Z;
  lax_bool : validator bool;
  parse_uuid : validator UUID;
  parse_datetime : validator datetime
}.

(** [int]: an integer is taken as it is. *)
Definition validate_int `{Core} : validator Z :=
  fun v => match v with PyInt n => Valid n | _ => lax_int v end.

(** [bool]: a boolean is taken as it is. *)
Definition validate_bool `{Core} : validator bool :=
  fun v => match v with PyBool b => Valid b | _ => lax_bool v end.

(** The behaviour of pydantic in strict mode, where nothing is coerced;
    identifiers and timestamps are then never given as JSON values. *)
Definition strict_core : Core :=
  {| lax_int := fun _ => fail "int_type";
     lax_bool := fun _ => fail "bool_type";
     parse_uuid := fun _ => fail "uuid_type";
     parse_datetime := fun _ => fail "datetime_type" |}.

End Pydantic.

Declare Scope validation_scope.
Delimit Scope validation_scope with validation.
Notation "f <*> x" := (Pydantic.ap f x)
  (at level 52, left associativity) : validation_scope.

(* ===================================================================== *)
(** * config.py *)
(* ===================================================================== *)

Module Config.
Import Py Pydantic.

Record HermesConfig : Type := mkConfig {
  base_url : string;
  auth_token : option string;
  timeout : Q;
  max_retries : Z;
  verify_ssl : bool;
  api_version : string;
  log_level : string;
  credentials_path : string
}.

(** The value found for each setting among the constructor's keyword
    arguments and the [HERMES_*] environment, already of the field's type;
    [None] when the setting is given nowhere, in which case the declared
    default is used as it is (pydantic does not validate defaults).
    [timeout] is a finite float, kept as the rational it denotes. *)
Record settings : Type := mkSettings {
  in_base_url : option string;
  in_auth_token : option string;
  in_timeout : option Q;
  in_max_retries : option Z;
  in_verify_ssl : option bool;
  in_api_version : option string;
  in_log_level : option string;
  in_credentials_path : option string
}.

Definition no_settings : settings :=
  mkSettings None None None None None None None None.

Definition default_base_url : string := "http://localhost:8000".
Definition default_timeout : Q := 30.
Definition default_max_retries : Z := 3.
Definition default_api_version : string := "v2".
Definition default_log_level : string := "INFO".
(** [Path.home() / ".hermes" / "credentials.json"] *)
Definition default_credentials_path : string := "~/.hermes/credentials.json".

(** [validate_base_url]: [v.rstrip("/")]. *)
Definition validate_base_url (v : string) : string := rstrip "/" v.

Definition valid_levels : list string :=
  ["DEBUG"; "INFO"; "WARNING"; "ERROR"; "CRITICAL"].

(** [validate_log_level]: the upper-cased level, or a [ValueError]. *)
Definition validate_log_level (v : string) : option string :=
  let v_upper := upper v in
  if negb (str_in v_upper valid_levels) then None else Some v_upper.

(** [Field(ge=0)] on [timeout]. *)
Definition check_timeout (v : Q) : list ErrorDetails :=
  if Qle_bool 0 v then [] else [mkErr ["timeout"] "greater_than_equal"].

(** [Field(ge=0, le=10)] on [max_retries]. *)
Definition check_max_retries (v : Z) : list ErrorDetails :=
  if negb (0 <=? v) then [mkErr ["max_retries"] "greater_than_equal"]
  else if negb (v <=? 10) then [mkErr ["max_retries"] "less_than_equal"]
  else [].

Definition check_log_level (v : string) : list ErrorDetails :=
  match validate_log_level v with
  | Some _ => []
  | None => [mkErr ["log_level"] "value_error"]
  end.

Definition on_supplied {A} (check : A -> list ErrorDetails) (v : option A)
  : list ErrorDetails :=
  match v with Some a => check a | None => [] end.

Definition or_default {A} (v : option A) (d : A) : A :=
  match v with Some a => a | None => d end.

(** Construction of a [HermesConfig] from settings: every supplied field is
    checked against its constraints and replaced by what its validator
    returns (the base URL without trailing slashes, the log level in upper
    case); the errors of all fields are reported together. *)
Definition HermesConfig_init (s : settings) : validated HermesConfig :=
  let errors :=
    (on_supplied check_timeout (in_timeout s)
     ++ on_supplied check_max_retries (in_max_retries s)
     ++ on_supplied check_log_level (in_log_level s))%list in
  match errors with
  | [] =>
      Valid {|
        base_url :=
          match in_base_url s with
          | Some v => validate_base_url v
          | None => default_base_url
          end;
        auth_token := in_auth_token s;
        timeout := or_default (in_timeout s) default_timeout;
        max_retries := or_default (in_max_retries s) default_max_retries;
        verify_ssl := or_default (in_verify_ssl s) true;
        api_version := or_default (in_api_version s) default_api_version;
        log_level :=
          match in_log_level s with
          | Some v => upper v
          | None => default_log_level
          end;
        credentials_path :=
          or_default (in_credentials_path s) default_credentials_path
      |}
  | _ :: _ => ValidationError errors
  end.

(** [get_api_url]: the path loses its leading slashes and is appended to
    [{base_url}/api/{api_version}/]. *)
Definition get_api_url (self : HermesConfig) (path : string) : string :=
  let path := lstrip "/" path in
  base_url self ++ "/api/" ++ api_version self ++ "/" ++ path.

End Config.

(* ===================================================================== *)
(** * exceptions.py *)
(* ===================================================================== *)

Module Exceptions.
Import Py.

(** The message of an exception: a value passed as it is, or the f-string
    [f"{prefix}{v}"], whose text is [prefix] followed by [str(v)]. *)
Inductive message : Type :=
| Plain (v : pyval)
| Formatted (prefix : string) (v : pyval).

(** The exceptions a request can end with.  Each constructor is a class
    and carries the attributes its [__init__] chain sets; [context] is the
    dictionary of keyword arguments that reached [HermesError.__init__].
    [TypeError], [ValueError] and [AttributeError] are Python's own. *)
Inductive exn : Type :=
| HermesAPIError (msg : message) (status_code response_body : pyval)
                 (context : dict)
| HermesAuthError (msg : message) (context : dict)
| HermesNotFoundError (msg : message) (status_code response_body : pyval)
                      (resource_type resource_id : pyval) (context : dict)
| HermesConnectionError (msg : message) (context : dict)
| HermesTimeoutError (msg : message) (context : dict)
| HermesRateLimitError (msg : message) (status_code response_body : pyval)
                       (retry_after : pyval) (context : dict)
| TypeError (text : string)
| ValueError (text : string)
| AttributeError (text : string).

(** A named parameter with default [None] takes its value from the
    keyword arguments; what is left goes to the catch-all [kwargs]. *)
Definition param (name : string) (kw : dict) : pyval :=
  dict_get_default name PyNone kw.

Definition rest (names : list string) (kw : dict) : dict :=
  fold_left (fun acc n => dict_remove n acc) names kw.

Definition multiple_values (callee keyword : string) : exn :=
  TypeError (callee ++ "() got multiple values for keyword argument '"
             ++ keyword ++ "'").

(** [HermesError.__init__(self, message, **kwargs)] sets [message] and
    [context = kwargs]; the classes that do not override [__init__]
    (auth, connection, timeout errors) are built by it. *)
Definition new_HermesAuthError (msg : message) (kw : dict) : exn :=
  HermesAuthError msg kw.

Definition new_HermesConnectionError (msg : message) (kw : dict) : exn :=
  HermesConnectionError msg kw.

Definition new_HermesTimeoutError (msg : message) (kw : dict) : exn :=
  HermesTimeoutError msg kw.

(** [HermesAPIError.__init__(self, message, status_code=None,
    response_body=None, **kwargs)], applied to the instance under
    construction: [build] receives the attributes it sets. *)
Definition HermesAPIError_init
    (build : message -> pyval -> pyval -> dict -> exn)
    (msg : message) (kw : dict) : exn :=
  let status_code := param "status_code" kw in
  let response_body := param "response_body" kw in
  let kwargs := rest ["status_code"; "response_body"] kw in
  build msg status_code response_body kwargs.

Definition new_HermesAPIError (msg : message) (kw : dict) : exn :=
  HermesAPIError_init HermesAPIError msg kw.

(** [HermesNotFoundError.__init__(self, message, resource_type=None,
    resource_id=None, **kwargs)] calls
    [super().__init__(message, status_code=404, **kwargs)]. *)
Definition new_HermesNotFoundError (msg : message) (kw : dict) : exn :=
  let resource_type := param "resource_type" kw in
  let resource_id := param "resource_id" kw in
  let kwargs := rest ["resource_type"; "resource_id"] kw in
  match call_keywords [("status_code", PyInt 404)] kwargs with
  | inl k => multiple_values "HermesAPIError.__init__" k
  | inr kw' =>
      HermesAPIError_init
        (fun m sc rb ctx => HermesNotFoundError m sc rb resource_type resource_id ctx)
        msg kw'
  end.

(** [HermesRateLimitError.__init__(self, message, retry_after=None,
    **kwargs)] calls [super().__init__(message, status_code=429, **kwargs)]. *)
Definition new_HermesRateLimitError (msg : message) (kw : dict) : exn :=
  let retry_after := param "retry_after" kw in
  let kwargs := rest ["retry_after"] kw in
  match call_keywords [("status_code", PyInt 429)] kwargs with
  | inl k => multiple_values "HermesAPIError.__init__" k
  | inr kw' =>
      HermesAPIError_init
        (fun m sc rb ctx => HermesRateLimitError m sc rb retry_after ctx)
        msg kw'
  end.

End Exceptions.

(* ===================================================================== *)
(** * http_client.py *)
(* ===================================================================== *)

Module HttpClient.
Import Py Config Exceptions.

(** An [httpx.Response], as far as the client reads it.  [json] is [None]
    when [response.json()] raises (the body is not JSON). *)
Record Response : Type := mkResponse {
  status_code : Z;
  text : string;
  json : option pyval;
  headers : list (string * string)
}.

(** [response.headers.get(name)]: header names compare without case. *)
Fixpoint headers_get (name : string) (hs : list (string * string))
  : option string :=
  match hs with
  | [] => None
  | (k, v) :: more =>
      if String.eqb (upper k) (upper name) then Some v else headers_get name more
  end.

(** What [httpx.AsyncClient.request] can raise: [httpx.TimeoutException],
    [httpx.ConnectError], or another [httpx.HTTPError]; the argument is
    the text of the exception. *)
Inductive httpx_error : Type :=
| TimeoutException (e : string)
| ConnectError (e : string)
| HTTPError (e : string).

Inductive outcome : Type :=
| Returns (response : Response)
| Raises (e : httpx_error).

(** What goes out on one call of [self._client.request]. *)
Record sent : Type := mkSent {
  sent_method : string;
  sent_url : string;
  sent_params : option dict;
  sent_json : option pyval;
  sent_data : option dict;
  sent_headers : list (string * string)
}.

(** The remote end: the outcome of a call given the calls made before it
    and the request itself.  A mock with [side_effect] is a transport that
    looks only at the number of earlier calls. *)
Definition transport : Type := list sent -> sent -> outcome.

(** The client object and what it did: whether the session is open
    ([self._client is not None]), the bearer token, every request handed
    to the transport, and the delays passed to [asyncio.sleep]. *)
Record client : Type := mkClient {
  config : HermesConfig;
  session_open : bool;
  _auth_token : option string;
  attempts : list sent;
  sleeps : list Z
}.

Definition new_client (cfg : HermesConfig) : client :=
  mkClient cfg false (auth_token cfg) [] [].

Definition start (self : client) : client :=
  if session_open self then self
  else mkClient (config self) true (_auth_token self) (attempts self) (sleeps self).

Definition record_attempt (self : client) (r : sent) : client :=
  mkClient (config self) (session_open self) (_auth_token self)
           (attempts self ++ [r]) (sleeps self).

Definition sleep (self : client) (seconds : Z) : client :=
  mkClient (config self) (session_open self) (_auth_token self)
           (attempts self) (sleeps self ++ [seconds]).

Definition _get_headers (self : client) : list (string * string) :=
  let headers :=
    [("Accept", "application/json");
     ("Content-Type", "application/json");
     ("User-Agent", "hc-hermes-python/0.1.0")] in
  match _auth_token self with
  | Some token =>
      if str_truthy token
      then dict_set "Authorization" ("Bearer " ++ token) headers
      else headers
  | None => headers
  end.

(** The error message read from the body: [error], else [message], else
    the raw text when the body is a JSON object; the raw text, or
    [HTTP <status> error] when that is empty, when the body is not JSON
    or not an object (the [.get] then raises and is caught). *)
Definition error_message_of (response : Response) : pyval :=
  match json response with
  | Some (PyDict error_body) =>
      dict_get_default "error"
        (dict_get_default "message" (PyStr (text response)) error_body)
        error_body
  | _ =>
      if str_truthy (text response) then PyStr (text response)
      else PyStr ("HTTP " ++ str_of_int (status_code response) ++ " error")
  end.

(** [_handle_error_response] always raises; the result is the exception
    that leaves it. *)
Definition _handle_error_response (response : Response) : exn :=
  let status_code := status_code response in
  let error_message := error_message_of response in
  if status_code =? 401 then
    new_HermesAuthError (Formatted "Authentication failed: " error_message)
      [("status_code", PyInt status_code); ("response_body", error_message)]
  else if status_code =? 403 then
    new_HermesAuthError (Formatted "Permission denied: " error_message)
      [("status_code", PyInt status_code); ("response_body", error_message)]
  else if status_code =? 404 then
    new_HermesNotFoundError (Plain error_message)
      [("status_code", PyInt status_code); ("response_body", error_message)]
  else if status_code =? 429 then
    let retry_after := headers_get "Retry-After" (headers response) in
    let retry_seconds :=
      match retry_after with
      | Some v => if str_truthy v then option_map PyInt (int_of_str v)
                  else Some PyNone
      | None => Some PyNone
      end in
    match retry_seconds with
    | None => ValueError "invalid literal for int() with base 10"
    | Some seconds =>
        new_HermesRateLimitError (Plain error_message)
          [("retry_after", seconds);
           ("status_code", PyInt status_code); ("response_body", error_message)]
    end
  else
    new_HermesAPIError (Plain error_message)
      [("status_code", PyInt status_code); ("response_body", error_message)].

(** The arguments of [request] that stay the same across retries. *)
Record call : Type := mkCall {
  method : string;
  path : string;
  params : option dict;
  body : option pyval;
  data : option dict;
  extra_headers : option (list (string * string))
}.

Definition build_request (self : client) (c : call) : sent :=
  let url := get_api_url (config self) (path c) in
  let request_headers := _get_headers self in
  let request_headers :=
    match extra_headers c with
    | Some (h :: hs) => dict_update request_headers (h :: hs)
    | _ => request_headers
    end in
  mkSent (method c) url (params c) (body c) (data c) request_headers.

(** Retries left before [retry_count] reaches [max_retries]. *)
Definition retries_left (self : client) (retry_count : nat) : nat :=
  Z.to_nat (max_retries (config self)) - retry_count.

(** [AsyncHTTPClient.request].  The result is the client afterwards and
    either the exception raised or the response returned. *)
Equations? request (t : transport) (self : client) (c : call) (retry_count : nat)
  : client * (exn + Response) by wf (retries_left self retry_count) lt :=
  request t self c retry_count :=
    let self1 := start self in
    let req := build_request self1 c in
    let self2 := record_attempt self1 req in
    match t (attempts self1) req with
    | Returns response =>
        if 400 <=? status_code response
        then (self2, inl (_handle_error_response response))
        else (self2, inr response)
    | Raises (TimeoutException e) =>
        match Z_lt_dec (Z.of_nat retry_count) (max_retries (config self)) with
        | left _ =>
            request t (sleep self2 (2 ^ Z.of_nat retry_count)) c (S retry_count)
        | right _ =>
            (self2, inl (new_HermesTimeoutError
                           (Formatted "Request timed out: " (PyStr e)) []))
        end
    | Raises (ConnectError e) =>
        match Z_lt_dec (Z.of_nat retry_count) (max_retries (config self)) with
        | left _ =>
            request t (sleep self2 (2 ^ Z.of_nat retry_count)) c (S retry_count)
        | right _ =>
            (self2, inl (new_HermesConnectionError
                           (Formatted "Connection failed: " (PyStr e)) []))
        end
    | Raises (HTTPError e) =>
        (self2, inl (new_HermesAPIError (Formatted "HTTP error: " (PyStr e)) []))
    end.
Proof.
  all: assert (Hcfg : config (start self) = config self)
    by (unfold start; destruct (session_open self); reflexivity).
  all: subst self2 req self1; unfold retries_left;
    cbn [sleep record_attempt config]; rewrite Hcfg; lia.
Qed.

Definition get (t : transport) (self : client) (path : string)
  : client * (exn + Response) :=
  request t self (mkCall "GET" path None None None None) 0.

Definition patch (t : transport) (self : client) (path : string)
    (body : option pyval) : client * (exn + Response) :=
  request t self (mkCall "PATCH" path None body None None) 0.

Definition post (t : transport) (self : client) (path : string)
    (body : option pyval) : client * (exn + Response) :=
  request t self (mkCall "POST" path None body None None) 0.

Definition put (t : transport) (self : client) (path : string)
    (body : option pyval) : client * (exn + Response) :=
  request t self (mkCall "PUT" path None body None None) 0.

Definition delete (t : transport) (self : client) (path : string)
  : client * (exn + Response) :=
  request t self (mkCall "DELETE" path None None None None) 0.

(** [set_auth_token]: the token of the client is replaced.  (The default
    header of an open session is replaced too; every call passes its own
    headers, built by [_get_headers], which take precedence over it.) *)
Definition set_auth_token (self : client) (token : string) : client :=
  mkClient (config self) (session_open self) (Some token)
           (attempts self) (sleeps self).

(** [close] *)
Definition close (self : client) : client :=
  mkClient (config self) false (_auth_token self) (attempts self) (sleeps self).

End HttpClient.

(* ===================================================================== *)
(** * models.py *)
(* ===================================================================== *)

Module Models.
Import Py Pydantic.
Local Open Scope validation_scope.

(** [class DocumentStatus(str, Enum)] *)
Inductive DocumentStatus : Type :=
| UNSPECIFIED
| WIP
| IN_REVIEW
| APPROVED
| OBSOLETE.

Definition DocumentStatus_members : list DocumentStatus :=
  [UNSPECIFIED; WIP; IN_REVIEW; APPROVED; OBSOLETE].

Definition value (s : DocumentStatus) : string :=
  match s with
  | UNSPECIFIED => "Unspecified"
  | WIP => "WIP"
  | IN_REVIEW => "In-Review"
  | APPROVED => "Approved"
  | OBSOLETE => "Obsolete"
  end.

(** [DocumentStatus(v)]: the member whose value is [v], if any. *)
Definition DocumentStatus_of (v : string) : option DocumentStatus :=
  find (fun m => String.eqb (value m) v) DocumentStatus_members.

Definition validate_status : validator DocumentStatus :=
  fun v =>
    match v with
    | PyStr s =>
        match DocumentStatus_of s with
        | Some m => Valid m
        | None => fail "enum"
        end
    | _ => fail "enum"
    end.

(** A model is validated from a dictionary; no other JSON value is one. *)
Definition model {A} (fields : dict -> validated A) : validator A :=
  fun v => match v with PyDict d => fields d | _ => fail "model_type" end.

Module DocumentType.
Record t : Type := mk {
  id : option Z;
  name : string;
  long_name : option string;
  description : option string;
  created_at : option datetime;
  updated_at : option datetime
}.

Definition model_validate `{Core} : validator t :=
  model (fun d =>
    Valid mk
    <*> optional "id" validate_int d
    <*> required "name" validate_str d
    <*> optional "long_name" validate_str d
    <*> optional "description" validate_str d
    <*> optional "created_at" parse_datetime d
    <*> optional "updated_at" parse_datetime d).
End DocumentType.

Module Product.
Record t : Type := mk {
  id : option Z;
  name : string;
  abbreviation : string;
  created_at : option datetime;
  updated_at : option datetime
}.

Definition model_validate `{Core} : validator t :=
  model (fun d =>
    Valid mk
    <*> optional "id" validate_int d
    <*> required "name" validate_str d
    <*> required "abbreviation" validate_str d
    <*> optional "created_at" parse_datetime d
    <*> optional "updated_at" parse_datetime d).
End Product.

Module User.
Record t : Type := mk {
  id : option Z;
  email_address : string;
  given_name : option string;
  family_name : option string;
  name : option string;
  photo_url : option string;
  created_at : option datetime;
  updated_at : option datetime
}.

Definition model_validate `{Core} : validator t :=
  model (fun d =>
    Valid mk
    <*> optional "id" validate_int d
    <*> required "email_address" validate_str d
    <*> optional "given_name" validate_str d
    <*> optional "family_name" validate_str d
    <*> optional "name" validate_str d
    <*> optional "photo_url" validate_str d
    <*> optional "created_at" parse_datetime d
    <*> optional "updated_at" parse_datetime d).

(** [self.name or self.email_address] *)
Definition display_name (self : t) : string :=
  match name self with
  | Some n => if str_truthy n then n else email_address self
  | None => email_address self
  end.
End User.

Module Group.
Record t : Type := mk {
  id : option Z;
  name : string;
  email_address : option string;
  created_at : option datetime;
  updated_at : option datetime
}.

Definition model_validate `{Core} : validator t :=
  model (fun d =>
    Valid mk
    <*> optional "id" validate_int d
    <*> required "name" validate_str d
    <*> optional "email_address" validate_str d
    <*> optional "created_at" parse_datetime d
    <*> optional "updated_at" parse_datetime d).
End Group.

Module DocumentCustomField.
(** [str | list[str]] *)
Inductive field_value : Type :=
| One (s : string)
| Many (l : list string).

Record t : Type := mk {
  name : string;
  display_name : option string;
  value : option field_value
}.

Definition validate_value : validator field_value :=
  fun v =>
    match v with
    | PyStr s => Valid (One s)
    | PyList _ => fmap Many (validate_list validate_str v)
    | _ => ValidationError [mkErr ["str"] "string_type";
                            mkErr ["list[str]"] "list_type"]
    end.

Definition model_validate : validator t :=
  model (fun d =>
    Valid mk
    <*> required "name" validate_str d
    <*> optional "display_name" validate_str d
    <*> optional "value" validate_value d).

Definition dump_value (v : field_value) : pyval :=
  match v with
  | One s => PyStr s
  | Many l => PyList (map PyStr l)
  end.
End DocumentCustomField.

Module DocumentRelatedResource.
Record t : Type := mk {
  id : option Z;
  url : option string;
  title : option string;
  sort_order : option Z;
  related_document_id : option Z;
  google_file_id : option string
}.

Definition model_validate `{Core} : validator t :=
  model (fun d =>
    Valid mk
    <*> optional "id" validate_int d
    <*> optional "url" validate_str d
    <*> optional "title" validate_str d
    <*> optional "sort_order" validate_int d
    <*> optional "related_document_id" validate_int d
    <*> optional "google_file_id" validate_str d).
End DocumentRelatedResource.

Module Document.
Record t : Type := mk {
  id : option Z;
  google_file_id : option string;
  document_uuid : option UUID;
  project_uuid : option UUID;
  provider_type : option string;
  provider_document_id : option string;
  project_id : option string;
  title : string;
  doc_number : option string;
  document_number : option Z;
  status : DocumentStatus;
  summary : option string;
  created_at : option datetime;
  updated_at : option datetime;
  document_created_at : option datetime;
  document_modified_at : option datetime;
  document_type : option DocumentType.t;
  product : option Product.t;
  owner : option User.t;
  owners : list User.t;
  approvers : list User.t;
  approver_groups : list Group.t;
  contributors : list User.t;
  custom_fields : list DocumentCustomField.t;
  related_resources : list DocumentRelatedResource.t;
  imported : bool;
  locked : bool;
  shareable_as_draft : bool
}.

(** The fields of a payload, by the key each is read from: [doc_number]
    is read from its alias [objectID]; keys that belong to no field are
    ignored. *)
Definition validate_fields `{Core} (d : dict) : validated t :=
  Valid mk
  <*> optional "id" validate_int d
  <*> optional "google_file_id" validate_str d
  <*> optional "document_uuid" parse_uuid d
  <*> optional "project_uuid" parse_uuid d
  <*> optional "provider_type" validate_str d
  <*> optional "provider_document_id" validate_str d
  <*> optional "project_id" validate_str d
  <*> required "title" validate_str d
  <*> optional "objectID" validate_str d
  <*> optional "document_number" validate_int d
  <*> field "status" validate_status WIP d
  <*> optional "summary" validate_str d
  <*> optional "created_at" parse_datetime d
  <*> optional "updated_at" parse_datetime d
  <*> optional "document_created_at" parse_datetime d
  <*> optional "document_modified_at" parse_datetime d
  <*> optional "document_type" DocumentType.model_validate d
  <*> optional "product" Product.model_validate d
  <*> optional "owner" User.model_validate d
  <*> field "owners" (validate_list User.model_validate) [] d
  <*> field "approvers" (validate_list User.model_validate) [] d
  <*> field "approver_groups" (validate_list Group.model_validate) [] d
  <*> field "contributors" (validate_list User.model_validate) [] d
  <*> field "custom_fields" (validate_list DocumentCustomField.model_validate) [] d
  <*> field "related_resources"
        (validate_list DocumentRelatedResource.model_validate) [] d
  <*> field "imported" validate_bool false d
  <*> field "locked" validate_bool false d
  <*> field "shareable_as_draft" validate_bool false d.

Definition model_validate `{Core} : validator t := model validate_fields.

(** The keys of the fields that have a default. *)
Definition optional_keys : list string :=
  ["id"; "google_file_id"; "document_uuid"; "project_uuid"; "provider_type";
   "provider_document_id"; "project_id"; "objectID"; "document_number";
   "status"; "summary"; "created_at"; "updated_at"; "document_created_at";
   "document_modified_at"; "document_type"; "product"; "owner"; "owners";
   "approvers"; "approver_groups"; "contributors"; "custom_fields";
   "related_resources"; "imported"; "locked"; "shareable_as_draft"].

(** [full_doc_number]: [if self.product and self.document_number]; a
    model instance is always true, an [int] is true when it is not 0. *)
Definition full_doc_number (self : t) : option string :=
  match product self, document_number self with
  | Some p, Some n =>
      if truthy (PyInt n)
      then Some (Product.abbreviation p ++ "-" ++ str_of_int n)
      else doc_number self
  | _, _ => doc_number self
  end.
End Document.

Module DocumentPatchRequest.
Record t : Type := mk {
  approvers : option (list string);
  approver_groups : option (list string);
  contributors : option (list string);
  custom_fields : option (list DocumentCustomField.t);
  owners : option (list string);
  status : option DocumentStatus;
  summary : option string;
  title : option string
}.

Definition field_names : list string :=
  ["approvers"; "approver_groups"; "contributors"; "custom_fields";
   "owners"; "status"; "summary"; "title"].

(** [extra="forbid"]: one error for each key that names no field. *)
Definition extra_forbidden (d : dict) : list ErrorDetails :=
  map (fun k => mkErr [k] "extra_forbidden")
      (filter (fun k => negb (str_in k field_names)) (keys d)).

Definition forbid_extra {A} (d : dict) (r : validated A) : validated A :=
  match extra_forbidden d with
  | [] => r
  | e :: es => ap (fmap (fun a _ => a) r) (@ValidationError unit (e :: es))
  end.

(** The request built from the keyword arguments [fields]. *)
Definition init (fields : dict) : validated t :=
  forbid_extra fields
    (Valid mk
     <*> optional "approvers" (validate_list validate_str) fields
     <*> optional "approver_groups" (validate_list validate_str) fields
     <*> optional "contributors" (validate_list validate_str) fields
     <*> optional "custom_fields"
           (validate_list DocumentCustomField.model_validate) fields
     <*> optional "owners" (validate_list validate_str) fields
     <*> optional "status" validate_status fields
     <*> optional "summary" validate_str fields
     <*> optional "title" validate_str fields).

(** [exclude_none=True]: a field whose value is [None] is left out, in
    nested models too. *)
Definition entry {A} (key : string) (dump : A -> pyval) (v : option A) : dict :=
  match v with
  | Some a => [(key, dump a)]
  | None => []
  end.

Definition dump_strs (l : list string) : pyval := PyList (map PyStr l).

Definition dump_custom_field (f : DocumentCustomField.t) : pyval :=
  PyDict ([("name", PyStr (DocumentCustomField.name f))]
          ++ entry "display_name" PyStr (DocumentCustomField.display_name f)
          ++ entry "value" DocumentCustomField.dump_value
                   (DocumentCustomField.value f))%list.

(** [model_dump(exclude_none=True)] *)
Definition model_dump_exclude_none (self : t) : dict :=
  (entry "approvers" dump_strs (approvers self)
   ++ entry "approver_groups" dump_strs (approver_groups self)
   ++ entry "contributors" dump_strs (contributors self)
   ++ entry "custom_fields" (fun l => PyList (map dump_custom_field l))
            (custom_fields self)
   ++ entry "owners" dump_strs (owners self)
   ++ entry "status" (fun m => PyStr (value m)) (status self)
   ++ entry "summary" PyStr (summary self)
   ++ entry "title" PyStr (title self))%list.
End DocumentPatchRequest.

Module SearchResult.
Record t : Type := mk {
  object_id : string;
  title : string;
  doc_number : option string;
  status : option DocumentStatus;
  summary : option string;
  product : option string;
  doc_type : option string;
  owners : list string;
  modified_time : option Z;
  extra_fields : dict;
  (** [extra="allow"]: the entries of the payload that belong to no field *)
  model_extra : dict
}.

Definition field_keys : list string :=
  ["objectID"; "title"; "doc_number"; "status"; "summary"; "product";
   "doc_type"; "owners"; "modified_time"; "extra_fields"].

Definition model_validate `{Core} : validator t :=
  model (fun d =>
    Valid mk
    <*> required "objectID" validate_str d
    <*> required "title" validate_str d
    <*> optional "doc_number" validate_str d
    <*> optional "status" validate_status d
    <*> optional "summary" validate_str d
    <*> optional "product" validate_str d
    <*> optional "doc_type" validate_str d
    <*> field "owners" (validate_list validate_str) [] d
    <*> optional "modified_time" validate_int d
    <*> field "extra_fields" validate_dict [] d
    <*> Valid (filter (fun kv => negb (str_in (fst kv) field_keys)) d)).
End SearchResult.

Module SearchResponse.
Record t : Type := mk {
  hits : list SearchResult.t;
  nb_hits : Z;
  page : Z;
  nb_pages : Z;
  hits_per_page : Z
}.

Definition validate_fields `{Core} (d : dict) : validated t :=
  Valid mk
  <*> required "hits" (validate_list SearchResult.model_validate) d
  <*> field "nb_hits" validate_int 0 d
  <*> field "page" validate_int 0 d
  <*> field "nb_pages" validate_int 0 d
  <*> field "hits_per_page" validate_int 20 d.

Definition model_validate `{Core} : validator t := model validate_fields.
End SearchResponse.

Module DocumentContent.
Record t : Type := mk {
  content : string;
  document_id : option string
}.

Definition model_validate : validator t :=
  model (fun d =>
    Valid mk
    <*> required "content" validate_str d
    <*> optional "document_id" validate_str d).
End DocumentContent.

End Models.

(* ===================================================================== *)
(** * client_async.py *)
(* ===================================================================== *)

Module ClientAsync.
Import Py Pydantic Exceptions HttpClient Models.

(** What a facade method can raise: an exception of the transport, or
    pydantic's [ValidationError]. *)
Inductive raised : Type :=
| Raised (e : exn)
| Invalid (errors : list ErrorDetails).

Definition parse_document `{Core} (response : Response) : raised + Document.t :=
  match json response with
  | None => inl (Raised (ValueError "response body is not JSON"))
  | Some payload =>
      match Document.model_validate payload with
      | Valid doc => inr doc
      | ValidationError es => inl (Invalid es)
      end
  end.

(** [AsyncDocumentsAPI.get] *)
Definition get `{Core} (t : transport) (self : client) (doc_id : string)
  : client * (raised + Document.t) :=
  match HttpClient.get t self ("documents/" ++ doc_id) with
  | (self', inl e) => (self', inl (Raised e))
  | (self', inr response) => (self', parse_document response)
  end.

(** [AsyncDocumentsAPI.update] *)
Definition update `{Core} (t : transport) (self : client) (doc_id : string)
    (fields : dict) : client * (raised + Document.t) :=
  match DocumentPatchRequest.init fields with
  | ValidationError es => (self, inl (Invalid es))
  | Valid patch_data =>
      let body := PyDict (DocumentPatchRequest.model_dump_exclude_none patch_data) in
      match HttpClient.patch t self ("documents/" ++ doc_id) (Some body) with
      | (self', inl e) => (self', inl (Raised e))
      | (self', inr response) => (self', parse_document response)
      end
  end.

(** [AsyncDocumentsAPI.delete] *)
Definition delete (t : transport) (self : client) (doc_id : string)
  : client * option exn :=
  match HttpClient.delete t self ("documents/" ++ doc_id) with
  | (self', inl e) => (self', Some e)
  | (self', inr _) => (self', None)
  end.

(** [AsyncDocumentsAPI.get_content]: the body is read as a dictionary (any
    other JSON value has no [get]), its [content], or the empty string, is
    the content and the identifier asked for is the document id. *)
Definition get_content (t : transport) (self : client) (doc_id : string)
  : client * (raised + DocumentContent.t) :=
  match HttpClient.get t self ("documents/" ++ doc_id ++ "/content") with
  | (self', inl e) => (self', inl (Raised e))
  | (self', inr response) =>
      match json response with
      | None => (self', inl (Raised (ValueError "response body is not JSON")))
      | Some (PyDict data) =>
          match DocumentContent.model_validate
                  (PyDict [("content", dict_get_default "content" (PyStr "") data);
                           ("document_id", PyStr doc_id)]) with
          | Valid c => (self', inr c)
          | ValidationError es => (self', inl (Invalid es))
          end
      | Some _ => (self', inl (Raised (AttributeError "object has no attribute 'get'")))
      end
  end.

(** [AsyncDocumentsAPI.update_content] *)
Definition update_content (t : transport) (self : client) (doc_id content : string)
  : client * option exn :=
  match HttpClient.put t self ("documents/" ++ doc_id ++ "/content")
                       (Some (PyDict [("content", PyStr content)])) with
  | (self', inl e) => (self', Some e)
  | (self', inr _) => (self', None)
  end.

(** The payload of [update_related_resources]: a key for each argument
    that [is not None]. *)
Definition related_resources_payload (external_links hermes_documents : option pyval)
  : dict :=
  (match external_links with
   | Some v => [("externalLinks", v)]
   | None => []
   end
   ++ match hermes_documents with
      | Some v => [("hermesDocuments", v)]
      | None => []
      end)%list.

(** [AsyncDocumentsAPI.update_related_resources] *)
Definition update_related_resources (t : transport) (self : client)
    (doc_id : string) (external_links hermes_documents : option pyval)
  : client * option exn :=
  let payload := related_resources_payload external_links hermes_documents in
  match HttpClient.put t self ("documents/" ++ doc_id ++ "/related-resources")
                       (Some (PyDict payload)) with
  | (self', inl e) => (self', Some e)
  | (self', inr _) => (self', None)
  end.

(** The payload of [AsyncSearchAPI.query]: [filters] is added [if filters],
    that is when it is given and not empty. *)
Definition search_payload (q : string) (filters : option dict)
    (page hits_per_page : Z) : dict :=
  let payload :=
    [("query", PyStr q); ("page", PyInt page); ("hitsPerPage", PyInt hits_per_page)] in
  match filters with
  | Some (f :: fs) => dict_set "filters" (PyDict (f :: fs)) payload
  | _ => payload
  end.

(** [AsyncSearchAPI.query] *)
Definition query `{Core} (t : transport) (self : client) (q index : string)
    (filters : option dict) (page hits_per_page : Z)
  : client * (raised + SearchResponse.t) :=
  match HttpClient.post t self ("search/" ++ index)
                        (Some (PyDict (search_payload q filters page hits_per_page))) with
  | (self', inl e) => (self', inl (Raised e))
  | (self', inr response) =>
      match json response with
      | None => (self', inl (Raised (ValueError "response body is not JSON")))
      | Some payload =>
          match SearchResponse.model_validate payload with
          | Valid r => (self', inr r)
          | ValidationError es => (self', inl (Invalid es))
          end
      end
  end.

End ClientAsync.

(* ===================================================================== *)
(** * utils.py *)
(* ===================================================================== *)

(** ** PyYAML and python-frontmatter, on the block-style documents the
    template is made of: a mapping from plain keys to plain one-line strings
    or to block sequences of such strings.  A text outside this fragment
    (quoted or folded scalars, nested mappings, numbers, ...) is not
    modelled: the functions answer [None] for it. *)

Module Yaml.
Import Py.

Definition nl : string := String (ascii_of_nat 10) EmptyString.

Inductive node : Type :=
| Scalar (s : string)
| Sequence (items : list string).

Definition is_letter (c : ascii) : bool :=
  let n := nat_of_ascii c in
  (((65 <=? n) && (n <=? 90)) || ((97 <=? n) && (n <=? 122)))%nat.

Definition is_digit (c : ascii) : bool :=
  let n := nat_of_ascii c in ((48 <=? n) && (n <=? 57))%nat.

Definition plain_char (c : ascii) : bool :=
  is_letter c || is_digit c || mem_char c " -_.@".

Fixpoint all_plain (s : string) : bool :=
  match s with
  | EmptyString => true
  | String c rest =>
      plain_char c
      && match rest with
         | String d _ => negb (Ascii.eqb c " " && Ascii.eqb d " ")
         | EmptyString => negb (Ascii.eqb c " ")
         end
      && all_plain rest
  end.

(** The words the implicit resolvers read as booleans or null. *)
Definition resolved_words : list string :=
  ["yes"; "Yes"; "YES"; "no"; "No"; "NO"; "true"; "True"; "TRUE";
   "false"; "False"; "FALSE"; "on"; "On"; "ON"; "off"; "Off"; "OFF";
   "null"; "Null"; "NULL"].

(** A string that is written without quotes and read back as the same
    string: it starts with a letter, is made of letters, digits, single
    spaces and [-_.@], does not end with a space and is not a word with
    another meaning. *)
Definition plain (s : string) : bool :=
  match s with
  | String c _ => is_letter c && all_plain s && negb (str_in s resolved_words)
  | EmptyString => false
  end.

(** A line that fits the width of 80 columns is not folded. *)
Definition fits (line : string) : bool := (String.length line <=? 80)%nat.

(** A key: letters, digits and underscores, starting with a letter. *)
Fixpoint key_chars (s : string) : bool :=
  match s with
  | EmptyString => true
  | String c rest => (is_letter c || is_digit c || Ascii.eqb c "_") && key_chars rest
  end.

Definition plain_key (s : string) : bool :=
  plain s && key_chars s.

Fixpoint all_plain_items (items : list string) : bool :=
  match items with
  | [] => true
  | s :: more => plain s && all_plain_items more
  end.

Definition dump_entry (kv : string * node) : option string :=
  let (k, v) := kv in
  if plain_key k then
    match v with
    | Scalar s =>
        if plain s && fits (k ++ ": " ++ s) then Some (k ++ ": " ++ s ++ nl)
        else None
    | Sequence (i :: items) =>
        if all_plain_items (i :: items)
           && forallb (fun s => fits ("- " ++ s)) (i :: items)
        then Some (k ++ ":" ++ nl
                   ++ String.concat "" (map (fun s => "- " ++ s ++ nl) (i :: items)))
        else None
    | Sequence [] => None
    end
  else None.

(** [yaml.dump(data, default_flow_style=False, sort_keys=False)] *)
Fixpoint dump (data : list (string * node)) : option string :=
  match data with
  | [] => None
  | [kv] => dump_entry kv
  | kv :: more =>
      match dump_entry kv, dump more with
      | Some a, Some b => Some (a ++ b)
      | _, _ => None
      end
  end.

(** [text.split(sep)] for a one-character separator. *)
Fixpoint split_on (sep : ascii) (s : string) : list string :=
  match s with
  | EmptyString => [EmptyString]
  | String c rest =>
      if Ascii.eqb c sep then EmptyString :: split_on sep rest
      else match split_on sep rest with
           | first :: more => String c first :: more
           | [] => [String c EmptyString]
           end
  end.

Definition lines (s : string) : list string := split_on (ascii_of_nat 10) s.

(** [s.startswith(p)], with what follows the prefix. *)
Fixpoint after_prefix (p s : string) : option string :=
  match p, s with
  | EmptyString, _ => Some s
  | String a p', String b s' => if Ascii.eqb a b then after_prefix p' s' else None
  | String _ _, EmptyString => None
  end.

(** The key and the rest of a line [key: rest] or [key:]. *)
Fixpoint split_key (s : string) : option (string * string) :=
  match s with
  | EmptyString => None
  | String ":" rest => Some (EmptyString, rest)
  | String c rest =>
      match split_key rest with
      | Some (k, v) => Some (String c k, v)
      | None => None
      end
  end.

(** Reading a block line by line: the entries read so far, and the key
    whose block sequence is being read, with its items so far. *)
Record reader : Type := mkReader {
  entries : list (string * pyval);
  pending : option (string * list string)
}.

Definition close (r : reader) : option (list (string * pyval)) :=
  match pending r with
  | None => Some (entries r)
  | Some (_, []) => None
  | Some (k, i :: items) =>
      Some (entries r ++ [(k, PyList (map PyStr (i :: items)))])%list
  end.

Definition read_line (r : reader) (l : string) : option reader :=
  if String.eqb l "" then Some r
  else
    match after_prefix "- " l with
    | Some item =>
        match pending r with
        | Some (k, items) =>
            if plain item
            then Some (mkReader (entries r) (Some (k, items ++ [item])%list))
            else None
        | None => None
        end
    | None =>
        match close r, split_key l with
        | Some es, Some (k, v) =>
            if negb (plain_key k) || dict_has k es then None
            else
              match after_prefix " " v with
              | Some s =>
                  if plain s
                  then Some (mkReader (es ++ [(k, PyStr s)])%list None)
                  else None
              | None =>
                  if String.eqb v "" then Some (mkReader es (Some (k, [])))
                  else None
              end
        | _, _ => None
        end
    end.

Fixpoint read_lines (r : reader) (ls : list string) : option reader :=
  match ls with
  | [] => Some r
  | l :: more =>
      match read_line r l with
      | Some r' => read_lines r' more
      | None => None
      end
  end.

(** [yaml.load(text, Loader=SafeLoader)]: the mapping read; it is empty
    for a text without entries, for which PyYAML answers [None]. *)
Definition load (text : string) : option (list (string * pyval)) :=
  match read_lines (mkReader [] None) (lines text) with
  | Some r => close r
  | None => None
  end.

End Yaml.

(** ** [frontmatter.loads]: the text is stripped; when it starts with a
    line of three or more dashes, the lines up to the next such line are the
    YAML block and the lines after it, stripped, are the content; otherwise
    there is no metadata and the stripped text is the content. *)

Module Frontmatter.
Import Py.

Fixpoint only_whitespace (s : string) : bool :=
  match s with
  | EmptyString => true
  | String c rest => mem_char c whitespace && only_whitespace rest
  end.

(** A line made of three or more dashes and then only whitespace. *)
Definition is_boundary (l : string) : bool :=
  let rest := lstrip "-" l in
  (3 <=? String.length l - String.length rest)%nat && only_whitespace rest.

(** The lines before the first boundary line, and those after it. *)
Fixpoint break_at_boundary (ls : list string) : option (list string * list string) :=
  match ls with
  | [] => None
  | l :: more =>
      if is_boundary l then Some ([], more)
      else
        match break_at_boundary more with
        | Some (before, after) => Some (l :: before, after)
        | None => None
        end
  end.

Definition unlines (ls : list string) : string := String.concat Yaml.nl ls.

(** The metadata and the content of a text; [None] when the YAML block is
    outside the modelled fragment. *)
Definition loads (text : string) : option (dict * string) :=
  let text := strip text in
  match Yaml.lines text with
  | first :: others =>
      if is_boundary first then
        match break_at_boundary others with
        | Some (fm, content) =>
            match Yaml.load (unlines fm) with
            | Some metadata => Some (metadata, strip (unlines content))
            | None => None
            end
        | None => Some ([], text)
        end
      else Some ([], text)
  | [] => Some ([], text)
  end.

End Frontmatter.

Module Utils.
Import Py Exceptions Models.

Record ParsedDocument : Type := mkParsed {
  title : pyval;
  doc_type : pyval;
  product : pyval;
  summary : pyval;
  status : option DocumentStatus;
  tags : pyval;
  approvers : pyval;
  contributors : pyval;
  content : string;
  metadata : dict
}.

(** [DocumentParser.__init__]: [required_fields or ["title"]]. *)
Record DocumentParser : Type := mkParser {
  required_fields : list string;
  optional_fields : list string
}.

Definition new_DocumentParser (required optional : option (list string))
  : DocumentParser :=
  mkParser
    match required with Some (f :: fs) => f :: fs | _ => ["title"] end
    match optional with Some fs => fs | None => [] end.

Definition get (key : string) (d : dict) : pyval := dict_get_default key PyNone d.

(** [x if isinstance(x, list) else [x] if x else None] *)
Definition as_list (x : pyval) : pyval :=
  match x with
  | PyList _ => x
  | _ => if truthy x then PyList [x] else PyNone
  end.

(** The status of the frontmatter: the member named by the value, or by
    the value in upper case, or none; a true value that is not a string
    has no [upper] and the [AttributeError] leaves the function. *)
Definition parse_status (status_str : pyval) : exn + option DocumentStatus :=
  if truthy status_str then
    match status_str with
    | PyStr s =>
        match DocumentStatus_of s with
        | Some m => inr (Some m)
        | None => inr (DocumentStatus_of (upper s))
        end
    | _ => inl (AttributeError "object has no attribute 'upper'")
    end
  else inr None.

(** [DocumentParser.parse_string]; [None] when the frontmatter is outside
    the modelled YAML fragment. *)
Definition parse_string (self : DocumentParser) (text : string)
  : option (exn + ParsedDocument) :=
  match Frontmatter.loads text with
  | None => None
  | Some (metadata, content) =>
      match find (fun f => negb (dict_has f metadata)) (required_fields self) with
      | Some f => Some (inl (ValueError ("Missing required field: " ++ f)))
      | None =>
          let title := dict_get_default "title" (PyStr "") metadata in
          let doc_type := py_or (get "docType" metadata) (get "doc_type" metadata) in
          let product := get "product" metadata in
          let summary := get "summary" metadata in
          let status_str := get "status" metadata in
          let tags := dict_get_default "tags" (PyList []) metadata in
          let approvers := dict_get_default "approvers" (PyList []) metadata in
          let contributors := dict_get_default "contributors" (PyList []) metadata in
          match parse_status status_str with
          | inl e => Some (inl e)
          | inr status =>
              Some (inr (mkParsed title doc_type product summary status
                           (as_list tags) (as_list approvers) (as_list contributors)
                           content metadata))
          end
      end
  end.

Definition given (key : string) (v : option string) (node : string -> Yaml.node)
  : list (string * Yaml.node) :=
  match v with
  | Some s => if str_truthy s then [(key, node s)] else []
  | None => []
  end.

(** [summary or "Brief description of this document."] *)
Definition summary_or_default (summary : option string) : string :=
  match summary with
  | Some s => if str_truthy s then s else "Brief description of this document."
  | None => "Brief description of this document."
  end.

(** [create_document_template]; [None] when a value cannot be written as a
    plain YAML string. *)
Definition create_document_template (doc_type title : string)
    (product author summary : option string) : option string :=
  let frontmatter_data :=
    ([("title", Yaml.Scalar title);
      ("docType", Yaml.Scalar doc_type);
      ("status", Yaml.Scalar "WIP")]
     ++ given "product" product Yaml.Scalar
     ++ given "summary" summary Yaml.Scalar
     ++ given "contributors" author (fun a => Yaml.Sequence [a]))%list in
  match Yaml.dump frontmatter_data with
  | None => None
  | Some frontmatter_yaml =>
      Some (Frontmatter.unlines
        ["---";
         strip frontmatter_yaml;
         "---";
         "";
         "# " ++ title;
         "";
         "## Summary";
         "";
         summary_or_default summary;
         "";
         "## Background";
         "";
         "Provide context and motivation for this document.";
         "";
         "## Proposal";
         "";
         "Describe the proposed solution or feature.";
         "";
         "## Alternatives Considered";
         "";
         "What other approaches were considered and why were they not chosen?";
         "";
         "## Open Questions";
         "";
         "- Question 1?";
         "- Question 2?";
         "";
         "## References";
         "";
         "- [Related Document](url)";
         ""])
  end.

End Utils.

(* ===================================================================== *)
(** * What the specification says, in terms of the definitions above *)
(* ===================================================================== *)

Module Spec.
Import Py Pydantic Config Exceptions HttpClient Models.

(** ** URLs *)

Definition slash_at (u : string) (i : nat) : bool :=
  match String.get i u with
  | Some c => Ascii.eqb c "/"
  | None => false
  end.

(** The slash at position [p] of [u] is there and has no slash next to it. *)
Definition single_slash_at (u : string) (p : nat) : bool :=
  slash_at u p
  && negb (slash_at u (S p))
  && match p with O => true | S q => negb (slash_at u q) end.

(** The positions of the three slashes [get_api_url] writes between the
    base URL, [api], the API version and the path. *)
Definition joins (cfg : HermesConfig) : list nat :=
  let b := String.length (base_url cfg) in
  [b; b + 4; b + 5 + String.length (api_version cfg)]%nat.

Definition joined_once (cfg : HermesConfig) (path : string) : bool :=
  forallb (single_slash_at (get_api_url cfg path)) (joins cfg).

(** A segment that is not empty and neither starts nor ends with a slash. *)
Definition bare_segment (v : string) : bool :=
  negb (String.eqb v "")
  && negb (slash_at v 0)
  && negb (slash_at v (String.length v - 1)).

(** ** Retries *)

(** A failure of the transport: a timeout or a connection error. *)
Definition transport_failure (o : outcome) : bool :=
  match o with
  | Raises (TimeoutException _) | Raises (ConnectError _) => true
  | _ => false
  end.

(** The typed error a transport failure is surfaced as. *)
Definition surfaced (o : outcome) : option exn :=
  match o with
  | Raises (TimeoutException e) =>
      Some (HermesTimeoutError (Formatted "Request timed out: " (PyStr e)) [])
  | Raises (ConnectError e) =>
      Some (HermesConnectionError (Formatted "Connection failed: " (PyStr e)) [])
  | _ => None
  end.

(** The delays [2^attempt] for [count] attempts from [first] on. *)
Definition backoff (first count : nat) : list Z :=
  map (fun attempt => 2 ^ Z.of_nat attempt) (seq first count).

(** The client after [n] more attempts with the request [req] and the
    given delays. *)
Definition after (self : client) (req : sent) (n : nat) (delays : list Z) : client :=
  mkClient (config self) true (_auth_token self)
           (attempts self ++ repeat req n)%list (sleeps self ++ delays)%list.

(** ** Partial updates *)

(** The caller gave the field [key] a value other than [None]. *)
Definition supplied (key : string) (fields : dict) : bool :=
  match dict_get key fields with
  | Some v => negb (is_none v)
  | None => false
  end.

(** ** Configuration: the values a configuration is built with. *)


(** The settings that spell out every value of a configuration. *)
Definition settings_of (cfg : HermesConfig) : settings :=
  mkSettings (Some (base_url cfg)) (auth_token cfg) (Some (timeout cfg))
             (Some (max_retries cfg)) (Some (verify_ssl cfg))
             (Some (api_version cfg)) (Some (log_level cfg))
             (Some (credentials_path cfg)).

(** The keys [Document] reads: its required [title] and the optional ones. *)
Definition document_keys : list string := "title" :: Document.optional_keys.

(** ** Frontmatter *)


(** The lines [yaml.dump] writes for one entry, and the value the entry is
    read back as. *)
Definition entry_lines (kv : string * Yaml.node) : list string :=
  match snd kv with
  | Yaml.Scalar s => [fst kv ++ ": " ++ s]
  | Yaml.Sequence items => (fst kv ++ ":") :: map (fun i => "- " ++ i) items
  end.

Definition loaded (kv : string * Yaml.node) : string * pyval :=
  (fst kv,
   match snd kv with
   | Yaml.Scalar s => PyStr s
   | Yaml.Sequence items => PyList (map PyStr items)
   end).

(** An entry [yaml.dump] writes in the modelled fragment. *)
Definition plain_entry (kv : string * Yaml.node) : bool :=
  Yaml.plain_key (fst kv)
  && match snd kv with
     | Yaml.Scalar s => Yaml.plain s
     | Yaml.Sequence (i :: items) => Yaml.all_plain_items (i :: items)
     | Yaml.Sequence [] => false
     end.

Fixpoint last_char (s : string) : option ascii :=
  match s with
  | EmptyString => None
  | String c EmptyString => Some c
  | String _ rest => last_char rest
  end.

Definition first_char (s : string) : option ascii :=
  match s with
  | EmptyString => None
  | String c _ => Some c
  end.

Definition is_space (c : ascii) : bool := mem_char c whitespace.

Definition not_space (c : option ascii) : bool :=
  match c with
  | Some c => negb (is_space c)
  | None => false
  end.

(** A line: a string without line feed. *)
Fixpoint one_line (s : string) : bool :=
  match s with
  | EmptyString => true
  | String c rest => negb (Ascii.eqb c (ascii_of_nat 10)) && one_line rest
  end.

(** What a parameter of the template counts as: nothing when it is absent
    or empty. *)
Definition given_value (v : option string) : option string :=
  match v with
  | Some s => if String.eqb s "" then None else Some s
  | None => None
  end.

(** A line that does not end with a space (and so is not empty). *)
Definition good_line (l : string) : bool :=
  one_line l && not_space (last_char l).

(** The text of lines that each end with a line feed. *)
Definition text_of_lines (ls : list string) : string :=
  String.concat "" (map (fun l => l ++ Yaml.nl) ls).

End Spec.

(* ===================================================================== *)
(** * The fixtures of the tests (tests/test_http_client.py, tests/test_models.py) *)
(* ===================================================================== *)

Module Tests.
Import Py Config HttpClient.

(** The [config] fixture: [max_retries=2]. *)
Definition config : HermesConfig :=
  mkConfig "http://test.example.com" (Some "test-token") 10 2 true "v2" "INFO"
           default_credentials_path.

(** A mock whose [side_effect] is a list: the n-th call has the n-th
    outcome; [otherwise] stands for what happens once the list is used up. *)
Definition side_effect (outcomes : list outcome) (otherwise : outcome) : transport :=
  fun earlier _ => nth (length earlier) outcomes otherwise.

(** A mock with one outcome for every call. *)
Definition always (o : outcome) : transport := fun _ _ => o.

Definition success : Response := mkResponse 200 "success" None [].

(** [test_timeout_with_retry] *)
Definition times_out_twice : transport :=
  side_effect
    [Raises (TimeoutException "Timeout 1");
     Raises (TimeoutException "Timeout 2");
     Returns success]
    (Raises (HTTPError "StopAsyncIteration")).

(** [test_timeout_exceeds_retries] *)
Definition always_times_out : transport :=
  always (Raises (TimeoutException "Timeout")).

(** [test_not_found_error_404] *)
Definition not_found : Response :=
  mkResponse 404 "Not found"
             (Some (PyDict [("error", PyStr "Resource not found")])) [].

(** [test_rate_limit_error_429] *)
Definition rate_limited : Response :=
  mkResponse 429 "Rate limit exceeded"
             (Some (PyDict [("error", PyStr "Too many requests")]))
             [("Retry-After", "60")].

Definition a_get : call := mkCall "GET" "test/path" None None None None.

(** [test_auth_error_401] *)
Definition unauthorized : Response :=
  mkResponse 401 "Unauthorized" (Some (PyDict [("error", PyStr "Invalid token")])) [].

(** A response of the server that no test has: an internal error whose
    body is not JSON. *)
Definition server_error : Response :=
  mkResponse 500 "Internal Server Error" None [].

(** The payload of the document of [test_document_model] in
    tests/test_models.py, with the given document number. *)
Definition terraform_document (number : Z) : pyval :=
  PyDict [("id", PyInt 1);
          ("title", PyStr "Test Document");
          ("document_number", PyInt number);
          ("status", PyStr "WIP");
          ("summary", PyStr "This is a test");
          ("product", PyDict [("id", PyInt 1); ("name", PyStr "terraform");
                              ("abbreviation", PyStr "TF")]);
          ("document_type", PyDict [("id", PyInt 1); ("name", PyStr "RFC")])].

End Tests.

(* ===================================================================== *)
(** * Properties *)
(* ===================================================================== *)

Import Py Pydantic Config Exceptions HttpClient Models Spec.

(** ** Strings *)

Section Strings.

Lemma mem_char_slash (c : ascii) : mem_char c "/" = Ascii.eqb c "/".
Proof. simpl. apply orb_false_r. Qed.

(** What is left of a path does not start with a slash. *)
Lemma lstrip_no_leading_slash (s : string) : slash_at (lstrip "/" s) 0 = false.
Proof.
  induction s as [|c s IH]; [reflexivity|].
  cbn [lstrip]. rewrite mem_char_slash.
  destruct (Ascii.eqb c "/") eqn:E; [exact IH|].
  unfold slash_at. cbn. exact E.
Qed.

(** What is left of a base URL does not end with a slash. *)
Lemma rstrip_no_trailing_slash (s : string) :
  slash_at (rstrip "/" s) (String.length (rstrip "/" s) - 1) = false.
Proof.
  induction s as [|c s IH]; [reflexivity|].
  cbn [rstrip]. destruct (rstrip "/" s) as [|d r] eqn:E.
  - rewrite mem_char_slash. destruct (Ascii.eqb c "/") eqn:Ec; [reflexivity|].
    unfold slash_at. cbn. exact Ec.
  - cbn [String.length Nat.sub] in *. rewrite Nat.sub_0_r in *. exact IH.
Qed.

Lemma get_app_left (a b : string) (i : nat) :
  (i < String.length a)%nat -> String.get i (a ++ b) = String.get i a.
Proof. intros H. symmetry. now apply append_correct1. Qed.

Lemma get_app_right (a b : string) (i : nat) :
  String.get (String.length a + i) (a ++ b) = String.get i b.
Proof. rewrite Nat.add_comm. symmetry. apply append_correct2. Qed.

Lemma slash_at_app_left (a b : string) (i : nat) :
  (i < String.length a)%nat -> slash_at (a ++ b) i = slash_at a i.
Proof. intros H. unfold slash_at. now rewrite get_app_left. Qed.

Lemma slash_at_app_right (a b : string) (i : nat) :
  slash_at (a ++ b) (String.length a + i) = slash_at b i.
Proof. unfold slash_at. now rewrite get_app_right. Qed.

End Strings.

(** ** Configuration *)

Section Configuration.

Lemma check_timeout_nil (v : Q) : check_timeout v = [] <-> ~ (v < 0)%Q.
Proof.
  unfold check_timeout. destruct (Qle_bool 0 v) eqn:E.
  - apply Qle_bool_iff in E. split; [intros _; now apply Qle_not_lt | reflexivity].
  - split; [discriminate|]. intros H. exfalso.
    apply Qnot_lt_le in H. apply Qle_bool_iff in H. congruence.
Qed.

Lemma check_max_retries_nil (v : Z) : check_max_retries v = [] <-> 0 <= v <= 10.
Proof.
  unfold check_max_retries.
  destruct (0 <=? v) eqn:E0; cbn [negb];
    [destruct (v <=? 10) eqn:E1; cbn [negb]|]; split;
    try discriminate; try reflexivity; lia.
Qed.

Lemma check_log_level_nil (v : string) :
  check_log_level v = [] <-> str_in (upper v) valid_levels = true.
Proof.
  unfold check_log_level, validate_log_level.
  destruct (str_in (upper v) valid_levels); cbn [negb]; split;
    try discriminate; reflexivity.
Qed.








(** The base URL of a configuration that was built has no trailing slash. *)
Lemma init_base_url (s : settings) (cfg : HermesConfig) :
  HermesConfig_init s = Valid cfg ->
  base_url cfg = rstrip "/" (or_default (in_base_url s) default_base_url)
  /\ api_version cfg = or_default (in_api_version s) default_api_version.
Proof.
  unfold HermesConfig_init. destruct (_ ++ _ ++ _)%list; [|discriminate].
  intros [= <-]. cbn [base_url api_version].
  destruct (in_base_url s); split; reflexivity.
Qed.

Lemma single_slash_after (a b : string) :
  slash_at b 0 = true ->
  slash_at b 1 = false ->
  slash_at a (String.length a - 1) = false ->
  single_slash_at (a ++ b) (String.length a) = true.
Proof.
  intros H0 H1 Ha. unfold single_slash_at.
  rewrite <- (Nat.add_0_r (String.length a)) at 1. rewrite slash_at_app_right, H0.
  replace (S (String.length a)) with (String.length a + 1)%nat by lia.
  rewrite slash_at_app_right, H1. cbn [negb andb].
  destruct (String.length a) as [|q] eqn:E; [reflexivity|].
  rewrite slash_at_app_left by lia.
  cbn [Nat.sub] in Ha. rewrite Nat.sub_0_r in Ha. now rewrite Ha.
Qed.

Lemma single_slash_shift (a b : string) (p : nat) :
  (0 < p)%nat ->
  single_slash_at b p = true ->
  single_slash_at (a ++ b) (String.length a + p) = true.
Proof.
  intros Hp. unfold single_slash_at.
  destruct p as [|q]; [lia|].
  rewrite Nat.add_succ_r.
  replace (S (S (String.length a + q))) with (String.length a + S (S q))%nat by lia.
  replace (S (String.length a + q)) with (String.length a + S q)%nat at 1 by lia.
  now rewrite !slash_at_app_right.
Qed.

(** C5, as the code has it: for a configuration that was built, a leading
    slash of the path changes nothing, the URL is the base URL without
    its trailing slashes, [/api/], the API version as configured, [/] and
    the path without its leading slashes; the three slashes at the joins
    are single ones when the API version is not empty and neither starts
    nor ends with a slash. *)
Theorem get_api_url_joins (s : settings) (cfg : HermesConfig) (path : string) :
  HermesConfig_init s = Valid cfg ->
  get_api_url cfg (String "/" path) = get_api_url cfg path
  /\ get_api_url cfg path
     = rstrip "/" (or_default (in_base_url s) default_base_url)
       ++ "/api/" ++ api_version cfg ++ "/" ++ lstrip "/" path
  /\ (bare_segment (api_version cfg) = true -> joined_once cfg path = true).
Proof.
  intros Hinit. destruct (init_base_url s cfg Hinit) as [Hb _].
  split; [reflexivity|]. split; [unfold get_api_url; now rewrite Hb|].
  unfold bare_segment, joined_once, joins, get_api_url.
  intros Hv. apply andb_prop in Hv as [Hv Hlast]. apply andb_prop in Hv as [Hne Hfirst].
  apply negb_true_iff in Hne, Hfirst, Hlast.
  set (v := api_version cfg) in *. set (p := lstrip "/" path).
  assert (Hlen : (0 < String.length v)%nat).
  { destruct v; [discriminate | cbn; lia]. }
  assert (Hp : slash_at p 0 = false) by apply lstrip_no_leading_slash.
  assert (Hbase : slash_at (base_url cfg) (String.length (base_url cfg) - 1) = false).
  { rewrite Hb. apply rstrip_no_trailing_slash. }
  assert (Hmid : single_slash_at (v ++ "/" ++ p) (String.length v) = true).
  { apply single_slash_after; [reflexivity | | exact Hlast].
    unfold slash_at in *. cbn. exact Hp. }
  assert (Hv0 : slash_at (v ++ "/" ++ p) 0 = false).
  { rewrite slash_at_app_left by lia. exact Hfirst. }
  cbn [forallb]. rewrite !andb_true_iff. repeat split.
  - apply single_slash_after; [reflexivity | reflexivity | exact Hbase].
  - apply single_slash_shift; [lia|].
    unfold single_slash_at.
    change (slash_at ("/api/" ++ v ++ "/" ++ p) 5) with (slash_at (v ++ "/" ++ p) 0).
    rewrite Hv0. reflexivity.
  - replace (String.length (base_url cfg) + 5 + String.length v)%nat
      with (String.length (base_url cfg) + (5 + String.length v))%nat by lia.
    apply single_slash_shift; [lia|].
    change ("/api/" ++ v ++ "/" ++ p) with ("/api/" ++ (v ++ "/" ++ p)).
    apply (single_slash_shift "/api/" (v ++ "/" ++ p) (String.length v) Hlen Hmid).
Qed.

(** C5 at the base URL of tests/test_config.py, given with two trailing
    slashes. *)
Lemma get_api_url_joins_witness :
  HermesConfig_init (mkSettings (Some "https://hermes.example.com//") None None
                                None None None None None)
  = Valid (mkConfig "https://hermes.example.com" None 30 3 true "v2" "INFO"
                    default_credentials_path)
  /\ get_api_url (mkConfig "https://hermes.example.com" None 30 3 true "v2" "INFO"
                           default_credentials_path) "/documents/DOC-123"
     = get_api_url (mkConfig "https://hermes.example.com" None 30 3 true "v2" "INFO"
                             default_credentials_path) "documents/DOC-123"
  /\ get_api_url (mkConfig "https://hermes.example.com" None 30 3 true "v2" "INFO"
                           default_credentials_path) "documents/DOC-123"
     = "https://hermes.example.com/api/v2/documents/DOC-123"
  /\ joined_once (mkConfig "https://hermes.example.com" None 30 3 true "v2" "INFO"
                           default_credentials_path) "documents/DOC-123" = true.
Proof.
  pose proof (get_api_url_joins
                (mkSettings (Some "https://hermes.example.com//") None None None
                            None None None None)
                (mkConfig "https://hermes.example.com" None 30 3 true "v2" "INFO"
                          default_credentials_path)
                "documents/DOC-123" eq_refl) as [H1 [H2 H3]].
  split; [reflexivity|]. split; [exact H1|]. split; [exact H2|].
  apply H3. reflexivity.
Defined.

(** C5, as stated, fails: the API version "v2/" is accepted and leaves a
    doubled slash between the version and the path. *)
Lemma api_version_slash_doubled :
  HermesConfig_init (mkSettings None None None None None (Some "v2/") None None)
  = Valid (mkConfig "http://localhost:8000" None 30 3 true "v2/" "INFO"
                    default_credentials_path)
  /\ get_api_url (mkConfig "http://localhost:8000" None 30 3 true "v2/" "INFO"
                           default_credentials_path) "x"
     = "http://localhost:8000/api/v2//x"
  /\ joined_once (mkConfig "http://localhost:8000" None 30 3 true "v2/" "INFO"
                           default_credentials_path) "x" = false.
Proof. repeat split. Qed.

End Configuration.

(** ** The retry loop of the transport *)

Section Retries.
Local Open Scope list_scope.

Variable t : transport.
Variable c : call.

Lemma start_eq (self : client) :
  start self
  = mkClient (config self) true (_auth_token self) (attempts self) (sleeps self).
Proof. destruct self as [cfg [|] tok att sl]; reflexivity. Qed.

Lemma start_after (self : client) (req : sent) (n : nat) (delays : list Z) :
  start (after self req n delays) = after self req n delays.
Proof. reflexivity. Qed.

Lemma build_request_after (self : client) (req : sent) (n : nat) (delays : list Z) :
  build_request (after self req n delays) c = build_request (start self) c.
Proof. rewrite start_eq. reflexivity. Qed.

Lemma after_0 (self : client) (req : sent) : after self req 0 [] = start self.
Proof. rewrite start_eq. unfold after. cbn [repeat]. now rewrite !app_nil_r. Qed.

(** The loop reads the client only after [start]. *)
Lemma request_start (self : client) (n : nat) :
  request t self c n = request t (start self) c n.
Proof.
  rewrite (request_equation_1 t self), (request_equation_1 t (start self)).
  rewrite !start_eq. reflexivity.
Qed.

Lemma backoff_S (first count : nat) :
  backoff first (S count) = 2 ^ Z.of_nat first :: backoff (S first) count.
Proof. reflexivity. Qed.

(** One failed attempt below the bound: the request is recorded, the
    client sleeps [2^retry_count] seconds and tries again. *)
Lemma request_retry (self : client) (retry_count : nat) :
  let req := build_request (start self) c in
  transport_failure (t (attempts self) req) = true ->
  Z.of_nat retry_count < max_retries (config self) ->
  request t self c retry_count
  = request t (after self req 1 [2 ^ Z.of_nat retry_count]) c (S retry_count).
Proof.
  intros req Hfail Hlt. rewrite request_equation_1. cbv zeta.
  replace (attempts (start self)) with (attempts self) by (now rewrite start_eq).
  fold req. destruct (t (attempts self) req) as [resp|[e|e|e]]; try discriminate.
  all: destruct (Z_lt_dec _ _) as [_|Hn]; [|contradiction].
  all: f_equal; rewrite start_eq; reflexivity.
Qed.

(** [k] failed attempts below the bound. *)
Lemma request_failures (k : nat) :
  forall (self : client) (retry_count : nat),
    let req := build_request (start self) c in
    (forall i, (i < k)%nat ->
               transport_failure (t (attempts self ++ repeat req i) req) = true) ->
    Z.of_nat (retry_count + k) <= max_retries (config self) ->
    request t self c retry_count
    = request t (after self req k (backoff retry_count k)) c (retry_count + k).
Proof.
  induction k as [|k IH]; intros self retry_count req Hfail Hle.
  - rewrite Nat.add_0_r. unfold backoff. cbn [seq map].
    rewrite after_0. apply request_start.
  - rewrite request_retry; fold req.
    + rewrite IH.
      * cbv zeta. rewrite start_after, build_request_after. fold req. unfold after.
        cbn [config _auth_token attempts sleeps].
        rewrite backoff_S, <- !app_assoc. cbn [app repeat].
        now rewrite Nat.add_succ_r.
      * intros i Hi. rewrite start_after, build_request_after. fold req.
        unfold after. cbn [attempts]. rewrite <- app_assoc.
        apply (Hfail (S i)). lia.
      * unfold after. cbn [config]. lia.
    + specialize (Hfail 0%nat). cbn [repeat] in Hfail. rewrite app_nil_r in Hfail.
      apply Hfail. lia.
    + lia.
Qed.

(** C1: with [r] retries configured, [k] transport failures in a row are
    each followed by a sleep of [2^attempt] seconds ([attempt] from 0) and
    a new attempt.  When [k <= r] and the next attempt returns a response
    below 400, that response is returned after [k + 1] attempts; when all
    [r + 1] attempts fail, the last failure is surfaced as its typed
    timeout or connection error after [r + 1] attempts and [r] sleeps. *)
Theorem request_retries_transport_failures (self : client) (r k : nat) :
  max_retries (config self) = Z.of_nat r ->
  (forall i, (i < k)%nat ->
     transport_failure
       (t (attempts self ++ repeat (build_request (start self) c) i)
          (build_request (start self) c)) = true) ->
  (forall response,
      (k <= r)%nat ->
      t (attempts self ++ repeat (build_request (start self) c) k)
        (build_request (start self) c) = Returns response ->
      status_code response < 400 ->
      request t self c 0
      = (after self (build_request (start self) c) (S k) (backoff 0 k),
         inr response))
  /\ (k = S r ->
      exists e,
        surfaced (t (attempts self ++ repeat (build_request (start self) c) r)
                    (build_request (start self) c)) = Some e
        /\ request t self c 0
           = (after self (build_request (start self) c) (S r) (backoff 0 r),
              inl e)).
Proof.
  intros Hr Hfail. set (req := build_request (start self) c) in *. split.
  - intros response Hk Hret Hok.
    rewrite (request_failures k self 0); fold req; [|exact Hfail|lia].
    rewrite request_equation_1. cbv zeta.
    rewrite start_after, build_request_after. fold req.
    cbn [Nat.add]. unfold after at 1. cbn [attempts]. rewrite Hret.
    destruct (400 <=? status_code response) eqn:E; [lia|].
    f_equal. unfold record_attempt, after.
    cbn [config session_open _auth_token attempts sleeps].
    rewrite <- app_assoc.
    replace (repeat req k ++ [req])%list with (repeat req (S k))
      by (cbn [repeat]; apply (repeat_cons k req)).
    reflexivity.
  - intros ->.
    assert (Hlast : transport_failure (t (attempts self ++ repeat req r) req) = true)
      by (apply Hfail; lia).
    rewrite (request_failures r self 0); fold req;
      [|intros i Hi; apply Hfail; lia|lia].
    rewrite request_equation_1. cbv zeta.
    rewrite start_after, build_request_after. fold req.
    cbn [Nat.add]. unfold after at 1 2. cbn [attempts config].
    assert (Hrec : record_attempt (after self req r (backoff 0 r)) req
                   = after self req (S r) (backoff 0 r)).
    { unfold record_attempt, after.
      cbn [config session_open _auth_token attempts sleeps].
      rewrite <- app_assoc.
      replace (repeat req r ++ [req])%list with (repeat req (S r))
        by (cbn [repeat]; apply (repeat_cons r req)).
      reflexivity. }
    destruct (t (attempts self ++ repeat req r) req) as [resp|[e|e|e]];
      try discriminate.
    all: destruct (Z_lt_dec _ _) as [Hlt|_];
      [unfold after in Hlt; cbn [config Nat.add] in Hlt; lia|].
    all: eexists; split; [reflexivity|]; now rewrite Hrec.
Qed.

(** Whatever the transport does, the requests a call adds to the record
    are copies of one request, and there is at least one. *)
Lemma request_attempts (k : nat) :
  forall (self : client) (retry_count : nat),
    retries_left self retry_count = k ->
    exists m,
      attempts (fst (request t self c retry_count))
      = attempts self ++ repeat (build_request (start self) c) (S m).
Proof.
  induction k as [|k IH]; intros self retry_count Hk;
    rewrite request_equation_1; cbv zeta;
    set (req := build_request (start self) c);
    assert (Hone : attempts (record_attempt (start self) req)
                   = attempts self ++ repeat req 1)
      by (rewrite start_eq; reflexivity);
    unfold retries_left in Hk.
  all: destruct (t (attempts (start self)) req) as [resp|[e|e|e]];
    try (destruct (400 <=? status_code resp));
    try (destruct (Z_lt_dec _ _) as [Hlt|Hge]);
    try (exists 0%nat; exact Hone); try lia.
  all: destruct (IH (sleep (record_attempt (start self) req)
                           (2 ^ Z.of_nat retry_count)) (S retry_count)) as [m Hm];
    [unfold retries_left; rewrite start_eq; cbn [sleep record_attempt config]; lia|].
  all: exists (S m); rewrite Hm; rewrite start_eq at 1 2;
    cbn [sleep record_attempt config session_open _auth_token attempts sleeps start];
    fold (start self); rewrite <- start_eq; fold req;
    rewrite <- app_assoc; reflexivity.
Qed.

End Retries.

Section RetryScenarios.
Local Open Scope list_scope.

(** C1 at the two mocks of the tests, with [max_retries=2]: two timeouts
    and then a success, and timeouts only; three attempts in both. *)
Lemma request_retries_transport_failures_witness :
  (exists cl,
      get Tests.times_out_twice (new_client Tests.config) "test/path"
      = (cl, inr Tests.success)
      /\ length (attempts cl) = 3%nat /\ sleeps cl = [1; 2])
  /\ (exists cl,
         get Tests.always_times_out (new_client Tests.config) "test/path"
         = (cl, inl (HermesTimeoutError
                       (Formatted "Request timed out: " (PyStr "Timeout")) []))
         /\ length (attempts cl) = 3%nat /\ sleeps cl = [1; 2]).
Proof.
  split.
  - destruct (request_retries_transport_failures
                Tests.times_out_twice Tests.a_get (new_client Tests.config) 2 2
                eq_refl) as [H _].
    + intros [|[|i]] Hi; [reflexivity | reflexivity | lia].
    + specialize (H Tests.success (le_n 2) eq_refl eq_refl).
      eexists. split; [exact H|]. split; reflexivity.
  - destruct (request_retries_transport_failures
                Tests.always_times_out Tests.a_get (new_client Tests.config) 2 3
                eq_refl) as [_ H].
    + intros i _. reflexivity.
    + destruct (H eq_refl) as (e & He & Hreq).
      injection He as <-.
      eexists. split; [exact Hreq|]. split; reflexivity.
Defined.

End RetryScenarios.

(** ** Error responses *)

Section ErrorResponses.

(** C2, where the code departs from it: for a 404, and for a 429 whose
    [Retry-After] is absent or an integer, building the exception fails,
    because [status_code] reaches [HermesAPIError.__init__] twice; what
    leaves the transport is a [TypeError], on the first attempt. *)
Theorem not_found_and_rate_limit_raise_TypeError :
  (forall text json headers,
      _handle_error_response (mkResponse 404 text json headers)
      = multiple_values "HermesAPIError.__init__" "status_code")
  /\ (forall text json headers,
         _handle_error_response (mkResponse 429 text json headers)
         = multiple_values "HermesAPIError.__init__" "status_code"
         \/ _handle_error_response (mkResponse 429 text json headers)
            = ValueError "invalid literal for int() with base 10")
  /\ (exists cl,
         get (Tests.always (Returns Tests.not_found)) (new_client Tests.config)
             "test/path"
         = (cl, inl (multiple_values "HermesAPIError.__init__" "status_code"))
         /\ length (attempts cl) = 1%nat)
  /\ (exists cl,
         get (Tests.always (Returns Tests.rate_limited)) (new_client Tests.config)
             "test/path"
         = (cl, inl (multiple_values "HermesAPIError.__init__" "status_code"))
         /\ length (attempts cl) = 1%nat).
Proof.
  split; [|split; [|split]].
  - intros text json headers. reflexivity.
  - intros text json headers. unfold _handle_error_response.
    cbn [status_code HttpClient.headers Z.eqb Pos.eqb].
    destruct (headers_get "Retry-After" headers) as [v|]; [|left; reflexivity].
    destruct (str_truthy v); [|left; reflexivity].
    destruct (int_of_str v); [left|right]; reflexivity.
  - unfold get. rewrite request_equation_1.
    eexists. split; [reflexivity|reflexivity].
  - unfold get. rewrite request_equation_1.
    eexists. split; [reflexivity|reflexivity].
Qed.

End ErrorResponses.

(** ** Validation of the models *)

Section Collecting.
Local Open Scope validation_scope.

Lemma ap_error_r {A B} (f : validated (A -> B)) (es : list ErrorDetails) :
  is_error (f <*> ValidationError es) = true.
Proof. destruct f; reflexivity. Qed.

Lemma ap_error_l {A B} (f : validated (A -> B)) (x : validated A) :
  is_error f = true -> is_error (f <*> x) = true.
Proof. destruct f, x; cbn; congruence. Qed.

Lemma ap_valid_inv {A B} (f : validated (A -> B)) (x : validated A) (b : B) :
  f <*> x = Valid b -> exists g a, f = Valid g /\ x = Valid a /\ b = g a.
Proof.
  destruct f as [g|], x as [a|]; cbn; try discriminate.
  intros [= <-]. now exists g, a.
Qed.

Lemma within_error {A} (key : string) (r : validated A) :
  is_error (within key r) = is_error r.
Proof. destruct r; reflexivity. Qed.

Lemma within_valid {A} (key : string) (r : validated A) (a : A) :
  within key r = Valid a -> r = Valid a.
Proof. destruct r; [trivial | discriminate]. Qed.

End Collecting.

(** A validated model determines the value of each of its fields. *)
Ltac fields_of H :=
  repeat (let g := fresh "g" in
          let a := fresh "a" in
          let Hf := fresh "Hfield" in
          apply ap_valid_inv in H as (g & a & H & Hf & ->));
  injection H as <-.

Section Validation.
Context `{core : Core}.
Local Open Scope validation_scope.

Lemma DocumentStatus_of_some (s : string) (m : DocumentStatus) :
  DocumentStatus_of s = Some m -> s = value m.
Proof.
  unfold DocumentStatus_of. intros H. apply find_some in H as [_ H].
  apply String.eqb_eq in H. now symmetry.
Qed.

(** Only the value of a member is a valid status. *)
Lemma validate_status_error (v : pyval) :
  (forall m, v <> PyStr (value m)) -> is_error (validate_status v) = true.
Proof.
  intros Hv. destruct v; try reflexivity. unfold validate_status.
  destruct (DocumentStatus_of s) as [m|] eqn:E; [|reflexivity].
  apply DocumentStatus_of_some in E. subst. now destruct (Hv m).
Qed.

Lemma validate_status_valid (v : pyval) (m : DocumentStatus) :
  validate_status v = Valid m -> v = PyStr (value m).
Proof.
  destruct v; try discriminate. unfold validate_status.
  destruct (DocumentStatus_of s) as [m'|] eqn:E; [|discriminate].
  intros [= <-]. apply DocumentStatus_of_some in E. now subst.
Qed.

(** The status field of a payload: the default without the key, the member
    named by the value with it. *)
Lemma status_field_valid (d : dict) (m : DocumentStatus) :
  field "status" validate_status WIP d = Valid m ->
  match dict_get "status" d with
  | None => m = WIP
  | Some v => v = PyStr (value m)
  end.
Proof.
  unfold field. destruct (dict_get "status" d) as [v|].
  - intros H. apply within_valid in H. now apply validate_status_valid.
  - now intros [= <-].
Qed.

Lemma document_status_of_payload (d : dict) (doc : Document.t) :
  Document.validate_fields d = Valid doc ->
  field "status" validate_status WIP d = Valid (Document.status doc).
Proof.
  unfold Document.validate_fields. intros H. fields_of H.
  cbn [Document.status]. assumption.
Qed.

(** C3, as the code has it: the status of a validated document is one of
    the five members Unspecified, WIP, In-Review, Approved, Obsolete, it
    is the one the payload names, and a payload whose status is anything
    else fails validation. *)
Theorem document_status_enumerated (d : dict) :
  (forall doc,
      Document.model_validate (PyDict d) = Valid doc ->
      In (value (Document.status doc))
         ["Unspecified"; "WIP"; "In-Review"; "Approved"; "Obsolete"]
      /\ forall v, dict_get "status" d = Some v ->
                   v = PyStr (value (Document.status doc)))
  /\ (forall v,
         dict_get "status" d = Some v ->
         (forall m, v <> PyStr (value m)) ->
         is_error (Document.model_validate (PyDict d)) = true).
Proof.
  split.
  - intros doc Hdoc. split.
    + destruct (Document.status doc); cbn; tauto.
    + intros v Hget. apply document_status_of_payload in Hdoc.
      apply status_field_valid in Hdoc. now rewrite Hget in Hdoc.
  - intros v Hget Hv. cbn [Document.model_validate model].
    unfold Document.validate_fields. do 17 apply ap_error_l.
    unfold field at 1. rewrite Hget.
    pose proof (validate_status_error v Hv) as E.
    rewrite <- (within_error "status") in E.
    destruct (within "status" (validate_status v)); [discriminate|].
    apply ap_error_r.
Qed.

(** C10: a payload without a status key validates exactly as the same
    payload with the status "WIP"; a document validated from it has the
    status WIP; and with a title and none of the other fields, validation
    succeeds. *)
Theorem document_status_defaults_to_WIP (d : dict) :
  dict_get "status" d = None ->
  Document.model_validate (PyDict d)
  = Document.model_validate (PyDict (("status", PyStr "WIP") :: d))
  /\ (forall doc,
         Document.model_validate (PyDict d) = Valid doc ->
         Document.status doc = WIP)
  /\ (forall title,
         dict_get "title" d = Some (PyStr title) ->
         (forall k, In k Document.optional_keys -> dict_get k d = None) ->
         exists doc,
           Document.model_validate (PyDict d) = Valid doc
           /\ Document.title doc = title
           /\ Document.status doc = WIP).
Proof.
  intros Hnone. split; [|split].
  - cbn [Document.model_validate model]. unfold Document.validate_fields.
    unfold optional, required, field. cbn [dict_get String.eqb Ascii.eqb Bool.eqb].
    rewrite Hnone. reflexivity.
  - intros doc Hdoc. apply document_status_of_payload in Hdoc.
    apply status_field_valid in Hdoc. now rewrite Hnone in Hdoc.
  - intros title Htitle Hrest.
    cbn [Document.model_validate model]. unfold Document.validate_fields.
    unfold optional, required, field. rewrite Htitle.
    rewrite !Hrest by (cbn; tauto).
    eexists. split; [reflexivity|]. split; reflexivity.
Qed.


End Validation.

Section ValidationScenarios.

(** C3 at a payload whose status is "draft", which names no member. *)
Lemma document_status_enumerated_witness :
  dict_get "status" [("title", PyStr "Test"); ("status", PyStr "draft")]
  = Some (PyStr "draft")
  /\ is_error (@Document.model_validate strict_core
                 (PyDict [("title", PyStr "Test"); ("status", PyStr "draft")])) = true.
Proof.
  split; [reflexivity|].
  apply (proj2 (@document_status_enumerated strict_core
                  [("title", PyStr "Test"); ("status", PyStr "draft")])
               (PyStr "draft")).
  - reflexivity.
  - intros m. destruct m; discriminate.
Defined.

(** C3, as stated, fails: a payload with the status "Unspecified" is
    accepted, and that status is none of draft (WIP), in-review, approved
    and obsolete. *)
Lemma unspecified_status_accepted :
  exists doc,
    @Document.model_validate strict_core
      (PyDict [("title", PyStr "Test"); ("status", PyStr "Unspecified")]) = Valid doc
    /\ Document.status doc = UNSPECIFIED
    /\ ~ In (Document.status doc) [WIP; IN_REVIEW; APPROVED; OBSOLETE].
Proof.
  eexists. split; [reflexivity|]. split; [reflexivity|].
  cbn. intros [H|[H|[H|[H|[]]]]]; discriminate.
Qed.

(** C10 at the payload of [test_document_model_defaults]. *)
Lemma document_status_defaults_to_WIP_witness :
  dict_get "status" [("title", PyStr "Minimal Doc")] = None
  /\ exists doc,
       @Document.model_validate strict_core (PyDict [("title", PyStr "Minimal Doc")])
       = Valid doc
       /\ Document.title doc = "Minimal Doc"
       /\ Document.status doc = WIP.
Proof.
  split; [reflexivity|].
  apply (proj2 (proj2 (@document_status_defaults_to_WIP strict_core
                         [("title", PyStr "Minimal Doc")] eq_refl))).
  - reflexivity.
  - intros k Hk. cbn in Hk.
    repeat (destruct Hk as [<-|Hk]; [reflexivity|]). destruct Hk.
Defined.



End ValidationScenarios.

(** ** Document numbers *)

Section DocumentNumbers.

(** C7, as the code has it: with a product and a document number that is
    not 0 the full number is abbreviation, hyphen, number; without a
    product, or with the document number absent or 0, it is the raw doc
    number, hence nothing when there is no raw doc number either. *)
Theorem full_doc_number_derivation (doc : Document.t) :
  (forall p n,
      Document.product doc = Some p ->
      Document.document_number doc = Some n ->
      n <> 0 ->
      Document.full_doc_number doc
      = Some (Product.abbreviation p ++ "-" ++ str_of_int n))
  /\ (Document.product doc = None \/ Document.document_number doc = None
      \/ Document.document_number doc = Some 0 ->
      Document.full_doc_number doc = Document.doc_number doc)
  /\ (Document.product doc = None ->
      Document.doc_number doc = None ->
      Document.full_doc_number doc = None).
Proof.
  unfold Document.full_doc_number. split; [|split].
  - intros p n -> -> Hn. cbn [truthy].
    destruct (n =? 0) eqn:E; [lia | reflexivity].
  - intros [H|[H|H]]; rewrite H; [reflexivity | | ];
      destruct (Document.product doc); reflexivity.
  - intros -> ->. reflexivity.
Qed.

(** C7 at the document of [test_document_model]: TF and 123. *)
Lemma full_doc_number_derivation_witness :
  exists doc,
    @Document.model_validate strict_core (Tests.terraform_document 123) = Valid doc
    /\ Document.full_doc_number doc = Some "TF-123".
Proof.
  eexists. split; [reflexivity|].
  apply (proj1 (full_doc_number_derivation _)
               (Product.mk (Some 1) "terraform" "TF" None None) 123).
  - reflexivity.
  - reflexivity.
  - discriminate.
Defined.

(** C7, as stated, fails in its general clause: with the product TF and
    the document number 0 both present, the full number is not "TF-0"
    but the raw doc number, here none. *)
Lemma zero_document_number_not_derived :
  exists doc p,
    @Document.model_validate strict_core (Tests.terraform_document 0) = Valid doc
    /\ Document.product doc = Some p
    /\ Product.abbreviation p = "TF"
    /\ Document.document_number doc = Some 0
    /\ Document.full_doc_number doc = None
    /\ Document.full_doc_number doc
       <> Some (Product.abbreviation p ++ "-" ++ str_of_int 0).
Proof.
  eexists. eexists. split; [reflexivity|]. split; [reflexivity|].
  split; [reflexivity|]. split; [reflexivity|]. split; [reflexivity|].
  discriminate.
Qed.

End DocumentNumbers.

(** ** Partial updates *)

Section PartialUpdate.
Context `{core : Core}.
Local Open Scope validation_scope.

Lemma dict_has_app (k : string) (a b : dict) :
  dict_has k (a ++ b)%list = dict_has k a || dict_has k b.
Proof.
  unfold dict_has. induction a as [|[k' v] a IH]; [reflexivity|].
  cbn [app dict_get]. destruct (String.eqb k k'); [reflexivity | exact IH].
Qed.

Lemma dict_has_entry {A} (k key : string) (dump : A -> pyval) (a : option A) :
  dict_has k (DocumentPatchRequest.entry key dump a) = String.eqb k key && is_some a.
Proof.
  unfold dict_has. destruct a; cbn.
  - destruct (String.eqb k key); reflexivity.
  - now rewrite andb_false_r.
Qed.

(** A field of type [T | None] holds a value exactly when the caller gave
    one that is not [None]. *)
Lemma optional_supplied {A} (key : string) (V : validator A) (d : dict)
    (a : option A) :
  optional key V d = Valid a -> is_some a = supplied key d.
Proof.
  unfold optional, field, supplied, opt.
  destruct (dict_get key d) as [v|]; [|now intros [= <-]].
  intros H. apply within_valid in H.
  destruct v; try (now injection H as <-);
    destruct (V _); cbn in H; try discriminate; now injection H as <-.
Qed.

Lemma dict_get_keys (k : string) (d : dict) (v : pyval) :
  dict_get k d = Some v -> In k (keys d).
Proof.
  induction d as [|[k' v'] d IH]; [discriminate|].
  cbn [dict_get keys map fst]. destruct (String.eqb_spec k k').
  - intros _. now left.
  - intros H. right. now apply IH.
Qed.

(** With [extra="forbid"], a request that was built has no other keys than
    the field names. *)
Lemma no_extra_keys (fields : dict) (k : string) :
  DocumentPatchRequest.extra_forbidden fields = [] ->
  str_in k DocumentPatchRequest.field_names = false ->
  dict_get k fields = None.
Proof.
  unfold DocumentPatchRequest.extra_forbidden. intros Hnil Hk.
  destruct (dict_get k fields) as [v|] eqn:E; [|reflexivity].
  apply dict_get_keys in E.
  assert (Hin : In k (filter (fun k => negb (str_in k DocumentPatchRequest.field_names))
                             (keys fields))).
  { apply filter_In. split; [exact E | now rewrite Hk]. }
  apply (in_map (fun k => mkErr [k] "extra_forbidden")) in Hin.
  rewrite Hnil in Hin. destruct Hin.
Qed.

Lemma init_valid (fields : dict) (req : DocumentPatchRequest.t) :
  DocumentPatchRequest.init fields = Valid req ->
  DocumentPatchRequest.extra_forbidden fields = []
  /\ is_some (DocumentPatchRequest.approvers req) = supplied "approvers" fields
  /\ is_some (DocumentPatchRequest.approver_groups req) = supplied "approver_groups" fields
  /\ is_some (DocumentPatchRequest.contributors req) = supplied "contributors" fields
  /\ is_some (DocumentPatchRequest.custom_fields req) = supplied "custom_fields" fields
  /\ is_some (DocumentPatchRequest.owners req) = supplied "owners" fields
  /\ is_some (DocumentPatchRequest.status req) = supplied "status" fields
  /\ is_some (DocumentPatchRequest.summary req) = supplied "summary" fields
  /\ is_some (DocumentPatchRequest.title req) = supplied "title" fields.
Proof.
  unfold DocumentPatchRequest.init, DocumentPatchRequest.forbid_extra.
  destruct (DocumentPatchRequest.extra_forbidden fields) as [|e es].
  - intros H. split; [reflexivity|]. fields_of H.
    cbn [DocumentPatchRequest.approvers DocumentPatchRequest.approver_groups
         DocumentPatchRequest.contributors DocumentPatchRequest.custom_fields
         DocumentPatchRequest.owners DocumentPatchRequest.status
         DocumentPatchRequest.summary DocumentPatchRequest.title].
    repeat split; eapply optional_supplied; eassumption.
  - intros H. apply ap_valid_inv in H as (g & a & _ & Ha & _). discriminate.
Qed.

Lemma str_in_field_names (k : string) :
  str_in k DocumentPatchRequest.field_names = false ->
  String.eqb k "approvers" = false /\ String.eqb k "approver_groups" = false
  /\ String.eqb k "contributors" = false /\ String.eqb k "custom_fields" = false
  /\ String.eqb k "owners" = false /\ String.eqb k "status" = false
  /\ String.eqb k "summary" = false /\ String.eqb k "title" = false.
Proof.
  cbn [str_in DocumentPatchRequest.field_names]. rewrite !orb_false_iff. tauto.
Qed.

(** The body of a patch has a key exactly for the fields supplied with a
    value other than [None]. *)
Lemma patch_body_keys (fields : dict) (req : DocumentPatchRequest.t) (k : string) :
  DocumentPatchRequest.init fields = Valid req ->
  dict_has k (DocumentPatchRequest.model_dump_exclude_none req) = supplied k fields.
Proof.
  intros H. apply init_valid in H
    as (Hextra & H1 & H2 & H3 & H4 & H5 & H6 & H7 & H8).
  unfold DocumentPatchRequest.model_dump_exclude_none.
  rewrite !dict_has_app, !dict_has_entry, H1, H2, H3, H4, H5, H6, H7, H8.
  destruct (str_in k DocumentPatchRequest.field_names) eqn:Hk.
  - cbn [str_in DocumentPatchRequest.field_names] in Hk.
    repeat match type of Hk with
           | (String.eqb ?a ?b || _) = true =>
               destruct (String.eqb_spec a b) as [->|_];
               [clear Hk; cbn [String.eqb Ascii.eqb Bool.eqb andb orb];
                rewrite ?orb_false_r; reflexivity
               | cbn [orb] in Hk]
           end.
    discriminate.
  - unfold supplied at 9. rewrite (no_extra_keys fields k Hextra Hk).
    apply str_in_field_names in Hk
      as (-> & -> & -> & -> & -> & -> & -> & ->).
    reflexivity.
Qed.

(** C6, as the code has it: the body of the PATCH request has a key
    exactly for the fields the caller supplied with a value other than
    [None], and every request [update] hands to the transport carries
    that body. *)
Theorem update_sends_supplied_fields (t : transport) (self : client)
    (doc_id : string) (fields : dict) (req : DocumentPatchRequest.t) :
  DocumentPatchRequest.init fields = Valid req ->
  (forall k,
      dict_has k (DocumentPatchRequest.model_dump_exclude_none req)
      = supplied k fields)
  /\ exists m request,
      attempts (fst (ClientAsync.update t self doc_id fields))
      = (attempts self ++ repeat request (S m))%list
      /\ sent_method request = "PATCH"
      /\ sent_json request
         = Some (PyDict (DocumentPatchRequest.model_dump_exclude_none req)).
Proof.
  intros Hreq. split; [intros k; now apply patch_body_keys|].
  unfold ClientAsync.update, patch. rewrite Hreq.
  set (c := mkCall "PATCH" _ None _ None None).
  destruct (request_attempts t c _ self 0 eq_refl) as [m Hm].
  exists m, (build_request (start self) c).
  split; [|split; reflexivity].
  destruct (request t self c 0) as [self' [e|response]]; exact Hm.
Qed.

End PartialUpdate.

Section PartialUpdateScenarios.

(** C6 at a call that supplies a title and gives the summary as [None]. *)
Lemma update_sends_supplied_fields_witness :
  DocumentPatchRequest.init [("title", PyStr "New title"); ("summary", PyNone)]
  = Valid (DocumentPatchRequest.mk None None None None None None None
                                   (Some "New title"))
  /\ dict_has "title"
       (DocumentPatchRequest.model_dump_exclude_none
          (DocumentPatchRequest.mk None None None None None None None
                                   (Some "New title"))) = true
  /\ dict_has "summary"
       (DocumentPatchRequest.model_dump_exclude_none
          (DocumentPatchRequest.mk None None None None None None None
                                   (Some "New title"))) = false.
Proof.
  pose proof (@update_sends_supplied_fields strict_core
                (Tests.always (Returns Tests.success)) (new_client Tests.config)
                "DOC-123"
                [("title", PyStr "New title"); ("summary", PyNone)]
                (DocumentPatchRequest.mk None None None None None None None
                                         (Some "New title"))
                eq_refl) as [H _].
  split; [reflexivity|]. split.
  - exact (H "title").
  - exact (H "summary").
Defined.

(** C6, as stated, fails: a field the caller supplies with the value
    [None] is part of the call and not of the body. *)
Lemma none_valued_field_omitted :
  DocumentPatchRequest.init [("summary", PyNone)]
  = Valid (DocumentPatchRequest.mk None None None None None None None None)
  /\ dict_has "summary" [("summary", PyNone)] = true
  /\ dict_has "summary"
       (DocumentPatchRequest.model_dump_exclude_none
          (DocumentPatchRequest.mk None None None None None None None None)) = false.
Proof. repeat split. Qed.

End PartialUpdateScenarios.

(** ** Templates *)

Section Templates.

(** C8: the template made for the type "RFC", the title "My New RFC" and
    the product "vault" parses back to a document with that title, type
    and product; so does the template of examples/frontmatter_usage.py,
    which has an author and a summary too. *)
Theorem template_round_trip :
  (exists template parsed,
      Utils.create_document_template "RFC" "My New RFC" (Some "vault") None None
      = Some template
      /\ Utils.parse_string (Utils.new_DocumentParser None None) template
         = Some (inr parsed)
      /\ Utils.title parsed = PyStr "My New RFC"
      /\ Utils.doc_type parsed = PyStr "RFC"
      /\ Utils.product parsed = PyStr "vault")
  /\ (exists template parsed,
         Utils.create_document_template "RFC" "My New RFC" (Some "vault")
           (Some "author@example.com") (Some "This RFC proposes a new feature")
         = Some template
         /\ Utils.parse_string (Utils.new_DocumentParser None None) template
            = Some (inr parsed)
         /\ Utils.title parsed = PyStr "My New RFC"
         /\ Utils.doc_type parsed = PyStr "RFC"
         /\ Utils.product parsed = PyStr "vault").
Proof.
  split.
  - eexists. eexists. split; [vm_compute; reflexivity|].
    split; [vm_compute; reflexivity|]. repeat split.
  - eexists. eexists. split; [vm_compute; reflexivity|].
    split; [vm_compute; reflexivity|]. repeat split.
Qed.

End Templates.

(** ** Configurations that were built *)

Section BuiltConfigurations.

Lemma rstrip_idempotent (chars s : string) :
  rstrip chars (rstrip chars s) = rstrip chars s.
Proof.
  induction s as [|c s IH]; [reflexivity|].
  cbn [rstrip]. destruct (rstrip chars s) as [|d r] eqn:E.
  - destruct (mem_char c chars) eqn:Ec; [reflexivity|].
    cbn [rstrip]. now rewrite Ec.
  - change (rstrip chars (String c (String d r)))
      with (match rstrip chars (String d r) with
            | EmptyString =>
                if mem_char c chars then EmptyString else String c EmptyString
            | r0 => String c r0
            end).
    now rewrite IH.
Qed.

Lemma valid_level_upper (v : string) :
  str_in v valid_levels = true -> upper v = v.
Proof.
  cbn [str_in valid_levels]. rewrite !orb_true_iff, !String.eqb_eq.
  intros [->|[->|[->|[->|[->|H]]]]]; try reflexivity. discriminate.
Qed.

Lemma app3_nil {A} (a b c : list A) :
  (a ++ b ++ c)%list = [] -> a = [] /\ b = [] /\ c = [].
Proof. destruct a, b, c; cbn; intros H; try discriminate; auto. Qed.

(** What the checks have established once a configuration is built. *)
Lemma init_checked (s : settings) (cfg : HermesConfig) :
  HermesConfig_init s = Valid cfg ->
  check_timeout (timeout cfg) = []
  /\ check_max_retries (max_retries cfg) = []
  /\ str_in (log_level cfg) valid_levels = true
  /\ rstrip "/" (base_url cfg) = base_url cfg.
Proof.
  unfold HermesConfig_init.
  destruct (_ ++ _ ++ _)%list eqn:E; [|discriminate].
  apply app3_nil in E as (Et & Er & El). intros [= <-].
  cbn [timeout max_retries log_level base_url]. unfold or_default, on_supplied in *.
  repeat split.
  - destruct (in_timeout s); [exact Et | reflexivity].
  - destruct (in_max_retries s); [exact Er | reflexivity].
  - destruct (in_log_level s) as [v|]; [|reflexivity].
    now apply check_log_level_nil.
  - destruct (in_base_url s); [apply rstrip_idempotent | reflexivity].
Qed.

(** X1: a configuration that was built has a timeout that is not negative,
    a retry count between 0 and 10, one of the five log levels, in upper
    case, and a base URL without trailing slash. *)
Theorem built_config_invariants (s : settings) (cfg : HermesConfig) :
  HermesConfig_init s = Valid cfg ->
  (0 <= timeout cfg)%Q
  /\ 0 <= max_retries cfg <= 10
  /\ In (log_level cfg) valid_levels
  /\ upper (log_level cfg) = log_level cfg
  /\ slash_at (base_url cfg) (String.length (base_url cfg) - 1) = false.
Proof.
  intros H. apply init_checked in H as (Ht & Hr & Hl & Hb).
  split; [|split; [|split; [|split]]].
  - apply Qnot_lt_le. now apply check_timeout_nil.
  - now apply check_max_retries_nil.
  - revert Hl. cbn [str_in valid_levels In].
    rewrite !orb_true_iff, !String.eqb_eq. intuition congruence.
  - now apply valid_level_upper.
  - rewrite <- Hb. apply rstrip_no_trailing_slash.
Qed.

(** X1 at the settings of [test_config_from_env], with the level in lower
    case and a slash after the URL. *)
Lemma built_config_invariants_witness :
  HermesConfig_init (mkSettings (Some "https://hermes.example.com/") (Some "test-token")
                                (Some 60%Q) None None None (Some "debug") None)
  = Valid (mkConfig "https://hermes.example.com" (Some "test-token") 60 3 true "v2"
                    "DEBUG" default_credentials_path)
  /\ (0 <= 60)%Q /\ 0 <= 3 <= 10 /\ In "DEBUG" valid_levels.
Proof.
  pose proof (built_config_invariants
                (mkSettings (Some "https://hermes.example.com/") (Some "test-token")
                            (Some 60%Q) None None None (Some "debug") None)
                (mkConfig "https://hermes.example.com" (Some "test-token") 60 3 true
                          "v2" "DEBUG" default_credentials_path)
                eq_refl) as (Ht & Hr & Hl & _).
  split; [reflexivity|]. split; [exact Ht|]. split; [exact Hr | exact Hl].
Defined.

(** X2: building a configuration again from the values of one that was
    built gives the same configuration: the validators change nothing the
    second time. *)
Theorem config_init_idempotent (s : settings) (cfg : HermesConfig) :
  HermesConfig_init s = Valid cfg ->
  HermesConfig_init (settings_of cfg) = Valid cfg.
Proof.
  intros H. apply init_checked in H as (Ht & Hr & Hl & Hb).
  unfold HermesConfig_init, settings_of.
  cbn [in_timeout in_max_retries in_log_level in_base_url in_auth_token
       in_verify_ssl in_api_version in_credentials_path on_supplied or_default].
  assert (El : check_log_level (log_level cfg) = []).
  { apply check_log_level_nil. now rewrite (valid_level_upper _ Hl). }
  rewrite Ht, Hr, El. cbn [app]. unfold validate_base_url.
  rewrite Hb, (valid_level_upper _ Hl). now destruct cfg.
Qed.

Lemma config_init_idempotent_witness :
  HermesConfig_init (mkSettings (Some "https://hermes.example.com/") None None
                                (Some 5) None None (Some "warning") None)
  = Valid (mkConfig "https://hermes.example.com" None 30 5 true "v2" "WARNING"
                    default_credentials_path)
  /\ HermesConfig_init
       (settings_of (mkConfig "https://hermes.example.com" None 30 5 true "v2" "WARNING"
                              default_credentials_path))
     = Valid (mkConfig "https://hermes.example.com" None 30 5 true "v2" "WARNING"
                       default_credentials_path).
Proof.
  split; [reflexivity|].
  apply (config_init_idempotent
           (mkSettings (Some "https://hermes.example.com/") None None
                       (Some 5) None None (Some "warning") None)).
  reflexivity.
Defined.

End BuiltConfigurations.

(** ** What one call of the transport leaves behind *)

Section Attempts.
Local Open Scope list_scope.

Variable t : transport.
Variable c : call.

Lemma request_after (k : nat) :
  forall (self : client) (retry_count : nat),
    retries_left self retry_count = k ->
    exists m,
      (m <= k)%nat
      /\ fst (request t self c retry_count)
         = after self (build_request (start self) c) (S m) (backoff retry_count m).
Proof.
  induction k as [|k IH]; intros self retry_count Hk;
    rewrite request_equation_1; cbv zeta;
    set (req := build_request (start self) c);
    assert (Hone : record_attempt (start self) req = after self req 1 (backoff retry_count 0))
      by (rewrite start_eq; unfold record_attempt, after, backoff;
          cbn [config session_open _auth_token attempts sleeps seq map repeat];
          now rewrite app_nil_r);
    unfold retries_left in Hk.
  all: destruct (t (attempts (start self)) req) as [resp|[e|e|e]];
    try (destruct (400 <=? status_code resp));
    try (destruct (Z_lt_dec _ _) as [Hlt|Hge]);
    try (exists 0%nat; split; [lia | exact Hone]); try lia.
  all: destruct (IH (sleep (record_attempt (start self) req)
                           (2 ^ Z.of_nat retry_count)) (S retry_count)) as (m & Hm & Hreq);
    [unfold retries_left; rewrite start_eq; cbn [sleep record_attempt config]; lia|].
  all: exists (S m); split; [lia|]; rewrite Hreq; rewrite start_eq at 1 2;
    unfold after;
    cbn [sleep record_attempt config session_open _auth_token attempts sleeps start];
    fold (start self); rewrite <- start_eq; fold req;
    rewrite backoff_S, <- !app_assoc; reflexivity.
Qed.

(** X3: whatever the transport does, a call makes at least one and at most
    [max_retries - retry_count + 1] attempts, all with the same request; it
    sleeps once between two attempts, [2^retry_count] seconds first and
    twice as long each time; it leaves the session open and keeps the
    configuration and the token. *)
Theorem request_attempts_bounded (self : client) (retry_count : nat) :
  exists m,
    (m <= retries_left self retry_count)%nat
    /\ fst (request t self c retry_count)
       = after self (build_request (start self) c) (S m) (backoff retry_count m).
Proof. now apply (request_after (retries_left self retry_count)). Qed.

Lemma request_on_response (self : client) (retry_count : nat) (response : Response) :
  t (attempts self) (build_request (start self) c) = Returns response ->
  request t self c retry_count
  = (after self (build_request (start self) c) 1 [],
     if 400 <=? status_code response
     then inl (_handle_error_response response)
     else inr response).
Proof.
  intros Hx. rewrite request_equation_1. cbv zeta.
  replace (attempts (start self)) with (attempts self) by (now rewrite start_eq).
  rewrite Hx.
  replace (record_attempt (start self) (build_request (start self) c))
    with (after self (build_request (start self) c) 1 []).
  - destruct (400 <=? status_code response); reflexivity.
  - rewrite start_eq. unfold record_attempt, after.
    cbn [config session_open _auth_token attempts sleeps repeat].
    now rewrite app_nil_r.
Qed.

(** X4: an answer of the server ends the call on the attempt that got it,
    whatever its status and however many retries are left: below 400 it is
    returned, from 400 on the mapped error is raised; an HTTP error that is
    neither a timeout nor a connection error is not retried either and is
    raised as an API error without status. *)
Theorem response_never_retried (self : client) (retry_count : nat) :
  (forall response,
      t (attempts self) (build_request (start self) c) = Returns response ->
      request t self c retry_count
      = (after self (build_request (start self) c) 1 [],
         if 400 <=? status_code response
         then inl (_handle_error_response response)
         else inr response))
  /\ (forall e,
         t (attempts self) (build_request (start self) c) = Raises (HTTPError e) ->
         request t self c retry_count
         = (after self (build_request (start self) c) 1 [],
            inl (HermesAPIError (Formatted "HTTP error: " (PyStr e)) PyNone PyNone []))).
Proof.
  assert (Hone : record_attempt (start self) (build_request (start self) c)
                 = after self (build_request (start self) c) 1 []).
  { rewrite start_eq. unfold record_attempt, after.
    cbn [config session_open _auth_token attempts sleeps repeat].
    now rewrite app_nil_r. }
  assert (Hatt : attempts (start self) = attempts self) by now rewrite start_eq.
  split; intros x Hx.
  - now apply request_on_response.
  - rewrite request_equation_1. cbv zeta. rewrite Hatt, Hx, Hone. reflexivity.
Qed.

End Attempts.

Section AttemptScenarios.

(** X4 at a server that answers 500 to a client with two retries left. *)
Lemma response_never_retried_witness :
  exists cl e,
    get (Tests.always (Returns Tests.server_error)) (new_client Tests.config) "test/path"
    = (cl, inl e)
    /\ length (attempts cl) = 1%nat /\ sleeps cl = [].
Proof.
  destruct (response_never_retried (Tests.always (Returns Tests.server_error))
              Tests.a_get (new_client Tests.config) 0) as [H _].
  specialize (H Tests.server_error eq_refl).
  eexists. eexists. split; [exact H|]. split; reflexivity.
Defined.

End AttemptScenarios.

(** ** The errors of the taxonomy *)

Section Taxonomy.






(** X6: how a status from 400 on is mapped when the error can be built:
    401 and 403 give an authentication error whose message has a prefix and
    which keeps the status and the message read from the body in its
    context only; every status other than 401, 403, 404 and 429 gives an
    API error whose status is the status of the response and whose body
    attribute is the message read from the body, with an empty context. *)
Theorem error_response_mapping (response : Response) :
  (status_code response = 401 ->
   _handle_error_response response
   = HermesAuthError
       (Formatted "Authentication failed: " (error_message_of response))
       [("status_code", PyInt 401); ("response_body", error_message_of response)])
  /\ (status_code response = 403 ->
      _handle_error_response response
      = HermesAuthError
          (Formatted "Permission denied: " (error_message_of response))
          [("status_code", PyInt 403); ("response_body", error_message_of response)])
  /\ (status_code response <> 401 -> status_code response <> 403 ->
      status_code response <> 404 -> status_code response <> 429 ->
      _handle_error_response response
      = HermesAPIError (Plain (error_message_of response))
                       (PyInt (status_code response)) (error_message_of response) []).
Proof.
  unfold _handle_error_response. split; [|split].
  - intros ->. reflexivity.
  - intros ->. reflexivity.
  - intros H1 H2 H3 H4.
    destruct (Z.eqb_spec (status_code response) 401); [contradiction|].
    destruct (Z.eqb_spec (status_code response) 403); [contradiction|].
    destruct (Z.eqb_spec (status_code response) 404); [contradiction|].
    destruct (Z.eqb_spec (status_code response) 429); [contradiction|].
    reflexivity.
Qed.

(** X6 at the mock of [test_auth_error_401] and at a 500 without JSON body. *)
Lemma error_response_mapping_witness :
  _handle_error_response Tests.unauthorized
  = HermesAuthError (Formatted "Authentication failed: " (PyStr "Invalid token"))
                    [("status_code", PyInt 401); ("response_body", PyStr "Invalid token")]
  /\ _handle_error_response Tests.server_error
     = HermesAPIError (Plain (PyStr "Internal Server Error")) (PyInt 500)
                      (PyStr "Internal Server Error") [].
Proof.
  split.
  - apply (proj1 (error_response_mapping Tests.unauthorized)). reflexivity.
  - apply (proj2 (proj2 (error_response_mapping Tests.server_error))); discriminate.
Defined.

End Taxonomy.

(** ** The headers of a request *)

Section Headers.
Local Open Scope list_scope.




Lemma build_request_start (self : client) (c : call) :
  build_request (start self) c = build_request self c.
Proof. rewrite start_eq. reflexivity. Qed.

Lemma authorization_header (self : client) :
  lookup "Authorization" (_get_headers self)
  = match _auth_token self with
    | Some token =>
        if String.eqb token "" then None else Some ("Bearer " ++ token)%string
    | None => None
    end.
Proof.
  unfold _get_headers, str_truthy. destruct (_auth_token self) as [tok|]; [|reflexivity].
  destruct (String.eqb tok ""); reflexivity.
Qed.



(** X8: after [set_auth_token] with a token that is not empty, every
    request of the next call, retries included, is passed the header
    [Authorization: Bearer token], unless the call brings that header
    itself. *)
Theorem set_auth_token_applies (t : transport) (self : client) (c : call)
    (token : string) (retry_count : nat) :
  token <> ""%string ->
  extra_headers c = None ->
  exists m req,
    attempts (fst (request t (set_auth_token self token) c retry_count))
    = attempts self ++ repeat req (S m)
    /\ lookup "Authorization" (sent_headers req) = Some ("Bearer " ++ token)%string.
Proof.
  intros Htok Hextra.
  destruct (request_attempts t c _ (set_auth_token self token) retry_count eq_refl)
    as [m Hm].
  exists m, (build_request (start (set_auth_token self token)) c).
  split; [exact Hm|].
  rewrite build_request_start. unfold build_request. rewrite Hextra.
  cbn [sent_headers]. rewrite authorization_header. cbn [set_auth_token _auth_token].
  destruct (String.eqb_spec token ""); [contradiction | reflexivity].
Qed.

(** X8 at a client whose token is replaced before a call that times out
    three times. *)
Lemma set_auth_token_applies_witness :
  exists m req,
    attempts (fst (request Tests.always_times_out
                           (set_auth_token (new_client Tests.config) "new-token")
                           Tests.a_get 0))
    = repeat req (S m)
    /\ lookup "Authorization" (sent_headers req) = Some "Bearer new-token"%string.
Proof.
  apply (set_auth_token_applies Tests.always_times_out (new_client Tests.config)
                                Tests.a_get "new-token" 0).
  - discriminate.
  - reflexivity.
Defined.

End Headers.

(** ** What validation reads from a payload *)

Section Payloads.
Context `{core : Core}.
Local Open Scope validation_scope.

(** Validation of a document looks at the keys of its fields only. *)
Lemma document_fields_depend_on_keys (d d' : dict) :
  (forall key, In key document_keys -> dict_get key d = dict_get key d') ->
  Document.validate_fields d = Document.validate_fields d'.
Proof.
  intros H. unfold Document.validate_fields, optional, required, field.
  repeat match goal with
         | |- context [dict_get ?key d] =>
             rewrite (H key) by (cbn; tauto)
         end.
  reflexivity.
Qed.

Lemma dict_get_cons_other (k key : string) (v : pyval) (d : dict) :
  String.eqb key k = false -> dict_get key ((k, v) :: d) = dict_get key d.
Proof. intros H. cbn [dict_get]. now rewrite H. Qed.

Lemma str_in_false_eqb (k key : string) (keys : list string) :
  str_in k keys = false -> In key keys -> String.eqb key k = false.
Proof.
  induction keys as [|k0 keys IH]; [intros _ []|].
  cbn [str_in In]. rewrite orb_false_iff. intros [Hk Hrest] [->|Hin].
  - now rewrite String.eqb_sym.
  - now apply IH.
Qed.

(** X9: a document is validated from the keys of its fields and from
    nothing else: two payloads that agree on these keys validate alike, and
    an entry under any other key is ignored.  The field [doc_number] is
    read from its alias [objectID], so [doc_number] is such a key. *)
Theorem document_ignores_other_keys (d : dict) :
  (forall d',
      (forall key, In key document_keys -> dict_get key d = dict_get key d') ->
      Document.model_validate (PyDict d) = Document.model_validate (PyDict d'))
  /\ (forall k v,
         str_in k document_keys = false ->
         Document.model_validate (PyDict ((k, v) :: d))
         = Document.model_validate (PyDict d))
  /\ str_in "doc_number" document_keys = false.
Proof.
  split; [|split; [|reflexivity]].
  - intros d' H. cbn [Document.model_validate model].
    now apply document_fields_depend_on_keys.
  - intros k v Hk. cbn [Document.model_validate model].
    apply document_fields_depend_on_keys. intros key Hin.
    apply dict_get_cons_other. now apply (str_in_false_eqb k key document_keys).
Qed.

(** X10: a validated document has the title of its payload, which is a
    string (so a payload without title, or with a title that is not a
    string, is never valid), and its [doc_number] is the string under
    [objectID], or nothing when that key is absent or [None]. *)
Theorem validated_document_reads_title_and_alias (d : dict) (doc : Document.t) :
  Document.model_validate (PyDict d) = Valid doc ->
  dict_get "title" d = Some (PyStr (Document.title doc))
  /\ match dict_get "objectID" d with
     | None | Some PyNone => Document.doc_number doc = None
     | Some v => exists s, v = PyStr s /\ Document.doc_number doc = Some s
     end.
Proof.
  cbn [Document.model_validate model]. unfold Document.validate_fields.
  intros H. fields_of H. cbn [Document.title Document.doc_number].
  repeat match goal with
         | Hf : optional ?key _ _ = _ |- _ =>
             lazymatch key with
             | "objectID" => fail
             | _ => clear Hf
             end
         | Hf : field _ _ _ _ = _ |- _ => clear Hf
         end.
  match goal with
  | Ht : required "title" _ _ = Valid ?a, Ho : optional "objectID" _ _ = Valid ?b |- _ =>
      unfold required in Ht; unfold optional, field, opt in Ho;
      destruct (dict_get "title" d) as [vt|]; [|discriminate];
      apply within_valid in Ht; split;
      [destruct vt; try discriminate; now injection Ht as <-|];
      destruct (dict_get "objectID" d) as [vo|]; [|now injection Ho as <-];
      apply within_valid in Ho;
      destruct vo; cbn in Ho; try discriminate;
      [now injection Ho as <- | injection Ho as <-; eexists; split; reflexivity]
  end.
Qed.

End Payloads.

Section PayloadScenarios.

(** X9 at the second document of [test_document_full_doc_number], given
    its number under the name of the field: the number is not read. *)
Lemma document_ignores_other_keys_witness :
  @Document.model_validate strict_core
    (PyDict [("doc_number", PyStr "TF-789"); ("title", PyStr "Test")])
  = @Document.model_validate strict_core (PyDict [("title", PyStr "Test")]).
Proof.
  apply (proj1 (proj2 (@document_ignores_other_keys strict_core
                         [("title", PyStr "Test")]))).
  reflexivity.
Defined.

(** X10 at the same document, given its number under [objectID]. *)
Lemma validated_document_reads_title_and_alias_witness :
  exists doc,
    @Document.model_validate strict_core
      (PyDict [("title", PyStr "Test"); ("objectID", PyStr "TF-789")]) = Valid doc
    /\ Document.title doc = "Test"
    /\ Document.doc_number doc = Some "TF-789"
    /\ Document.full_doc_number doc = Some "TF-789".
Proof.
  eexists. split; [reflexivity|].
  pose proof (@validated_document_reads_title_and_alias strict_core
                [("title", PyStr "Test"); ("objectID", PyStr "TF-789")] _ eq_refl)
    as [_ H].
  split; [reflexivity|]. split; [|reflexivity].
  destruct H as (s & Hs & ->). now injection Hs as <-.
Defined.

End PayloadScenarios.

(** ** Patch requests and search results *)

Section Requests.
Context `{core : Core}.
Local Open Scope validation_scope.

Lemma validate_items_strs (l : list string) :
  forall index, validate_items validate_str index (map PyStr l) = Valid l.
Proof.
  induction l as [|s l IH]; intros index; [reflexivity|].
  cbn [map validate_items validate_str within ap]. now rewrite IH.
Qed.

Lemma validate_custom_field (f : DocumentCustomField.t) :
  DocumentCustomField.model_validate (DocumentPatchRequest.dump_custom_field f) = Valid f.
Proof.
  destruct f as [name [display|] [[s|l]|]];
    unfold DocumentPatchRequest.dump_custom_field, DocumentCustomField.model_validate;
    cbn; try reflexivity.
  all: now rewrite validate_items_strs.
Qed.

Lemma validate_items_custom_fields (l : list DocumentCustomField.t) :
  forall index,
    validate_items DocumentCustomField.model_validate index
                   (map DocumentPatchRequest.dump_custom_field l) = Valid l.
Proof.
  induction l as [|f l IH]; intros index; [reflexivity|].
  cbn [map validate_items]. rewrite validate_custom_field, IH. reflexivity.
Qed.

Lemma dict_get_entry_other {A} (k key : string) (dump : A -> pyval) (a : option A)
    (others : dict) :
  String.eqb k key = false ->
  dict_get k (DocumentPatchRequest.entry key dump a ++ others)%list = dict_get k others.
Proof. intros H. destruct a; cbn; [now rewrite H | reflexivity]. Qed.

Lemma dict_get_entry_same {A} (key : string) (dump : A -> pyval) (a : option A)
    (others : dict) :
  dict_get key (DocumentPatchRequest.entry key dump a ++ others)%list
  = match a with Some x => Some (dump x) | None => dict_get key others end.
Proof. destruct a; cbn; [now rewrite String.eqb_refl | reflexivity]. Qed.

Lemma extra_forbidden_app (a b : dict) :
  DocumentPatchRequest.extra_forbidden (a ++ b)%list
  = (DocumentPatchRequest.extra_forbidden a
     ++ DocumentPatchRequest.extra_forbidden b)%list.
Proof.
  unfold DocumentPatchRequest.extra_forbidden, keys.
  now rewrite map_app, filter_app, map_app.
Qed.

Lemma extra_forbidden_entry {A} (key : string) (dump : A -> pyval) (a : option A) :
  str_in key DocumentPatchRequest.field_names = true ->
  DocumentPatchRequest.extra_forbidden (DocumentPatchRequest.entry key dump a) = [].
Proof.
  intros H. destruct a; [|reflexivity].
  unfold DocumentPatchRequest.extra_forbidden. cbn [DocumentPatchRequest.entry keys map fst filter].
  now rewrite H.
Qed.

(** The value of a field is read back from the entry that was dumped for it. *)
Ltac read_back :=
  unfold optional, field;
  rewrite ?dict_get_entry_other by reflexivity;
  rewrite dict_get_entry_same;
  match goal with
  | |- match match ?a with Some _ => _ | None => _ end with _ => _ end = _ =>
      destruct a;
      [cbn [opt within fmap validate_str validate_list
              DocumentPatchRequest.dump_strs validate_status];
       rewrite ?validate_items_strs, ?validate_items_custom_fields;
       reflexivity
      |rewrite ?dict_get_entry_other by reflexivity; reflexivity]
  end.

(** X11: dumping a patch request without its [None] fields and building a
    request from the result gives the request back; in particular the body
    that is sent names only fields of the request. *)
Theorem patch_request_round_trip (req : DocumentPatchRequest.t) :
  DocumentPatchRequest.init (DocumentPatchRequest.model_dump_exclude_none req)
  = Valid req.
Proof.
  destruct req as [a1 a2 a3 a4 a5 a6 a7 a8].
  unfold DocumentPatchRequest.init, DocumentPatchRequest.forbid_extra,
    DocumentPatchRequest.model_dump_exclude_none.
  cbn [DocumentPatchRequest.approvers DocumentPatchRequest.approver_groups
       DocumentPatchRequest.contributors DocumentPatchRequest.custom_fields
       DocumentPatchRequest.owners DocumentPatchRequest.status
       DocumentPatchRequest.summary DocumentPatchRequest.title].
  rewrite <- (app_nil_r (DocumentPatchRequest.entry "title" PyStr a8)).
  rewrite !extra_forbidden_app, !extra_forbidden_entry by reflexivity.
  cbn [app DocumentPatchRequest.extra_forbidden keys map filter].
  set (body := (DocumentPatchRequest.entry "approvers" _ a1 ++ _)%list).
  assert (H1 : optional "approvers" (validate_list validate_str) body = Valid a1)
    by (subst body; read_back).
  assert (H2 : optional "approver_groups" (validate_list validate_str) body = Valid a2)
    by (subst body; read_back).
  assert (H3 : optional "contributors" (validate_list validate_str) body = Valid a3)
    by (subst body; read_back).
  assert (H4 : optional "custom_fields"
                 (validate_list DocumentCustomField.model_validate) body = Valid a4)
    by (subst body; read_back).
  assert (H5 : optional "owners" (validate_list validate_str) body = Valid a5)
    by (subst body; read_back).
  assert (H6 : optional "status" validate_status body = Valid a6).
  { subst body. unfold optional, field.
    rewrite ?dict_get_entry_other by reflexivity. rewrite dict_get_entry_same.
    destruct a6 as [m|];
      [destruct m; reflexivity
      |rewrite ?dict_get_entry_other by reflexivity; reflexivity]. }
  assert (H7 : optional "summary" validate_str body = Valid a7)
    by (subst body; read_back).
  assert (H8 : optional "title" validate_str body = Valid a8)
    by (subst body; read_back).
  rewrite H1, H2, H3, H4, H5, H6, H7, H8. reflexivity.
Qed.

Lemma ap_error_includes {A B} (f : validated (A -> B)) (es : list ErrorDetails) :
  exists es', f <*> ValidationError es = ValidationError es' /\ incl es es'.
Proof.
  destruct f as [g|es0]; cbn [ap].
  - exists es. split; [reflexivity | apply incl_refl].
  - exists (es0 ++ es)%list. split; [reflexivity | apply incl_appr, incl_refl].
Qed.

(** X12: a field name the patch request does not have is refused: the
    request is not built, the error names the key, and [update] raises it
    without handing anything to the transport. *)
Theorem update_refuses_unknown_field (t : transport) (self : client)
    (doc_id : string) (fields : dict) (k : string) (v : pyval) :
  dict_get k fields = Some v ->
  str_in k DocumentPatchRequest.field_names = false ->
  exists es,
    DocumentPatchRequest.init fields = ValidationError es
    /\ In (mkErr [k] "extra_forbidden") es
    /\ ClientAsync.update t self doc_id fields = (self, inl (ClientAsync.Invalid es)).
Proof.
  intros Hget Hk.
  assert (Hin : In (mkErr [k] "extra_forbidden")
                   (DocumentPatchRequest.extra_forbidden fields)).
  { unfold DocumentPatchRequest.extra_forbidden.
    apply (in_map (fun k => mkErr [k] "extra_forbidden")).
    apply filter_In. split; [now apply (dict_get_keys k fields v) | now rewrite Hk]. }
  unfold ClientAsync.update, DocumentPatchRequest.init, DocumentPatchRequest.forbid_extra.
  destruct (DocumentPatchRequest.extra_forbidden fields) as [|e es0]; [destruct Hin|].
  match goal with
  | |- context [ap ?f (@ValidationError unit (e :: es0))] =>
      destruct (ap_error_includes f (e :: es0)) as (es' & -> & Hincl)
  end.
  exists es'. split; [reflexivity|]. split; [now apply Hincl | reflexivity].
Qed.

Lemma dict_get_filter (keep : string -> bool) (k : string) (d : dict) :
  dict_get k (filter (fun kv => keep (fst kv)) d)
  = if keep k then dict_get k d else None.
Proof.
  induction d as [|[k0 v0] d IH]; cbn [filter fst dict_get].
  - now destruct (keep k).
  - destruct (keep k0) eqn:E0; cbn [dict_get];
      destruct (String.eqb_spec k k0) as [->|_]; try exact IH.
    + now rewrite E0.
    + rewrite IH. now rewrite E0.
Qed.

(** X13: a search result keeps what the index adds: every entry of the
    payload under a key that is not one of its fields is in its extra
    fields, unchanged, and nothing else is. *)
Theorem search_result_keeps_extra (d : dict) (r : SearchResult.t) (k : string) :
  SearchResult.model_validate (PyDict d) = Valid r ->
  dict_get k (SearchResult.model_extra r)
  = if str_in k SearchResult.field_keys then None else dict_get k d.
Proof.
  cbn [SearchResult.model_validate model]. intros H. fields_of H.
  cbn [SearchResult.model_extra].
  match goal with
  | Hx : Valid (filter _ d) = Valid ?a |- _ => injection Hx as <-
  end.
  rewrite (dict_get_filter (fun k => negb (str_in k SearchResult.field_keys))).
  now destruct (str_in k SearchResult.field_keys).
Qed.

End Requests.

Section RequestScenarios.

(** X12 at an update that misspells [title]. *)
Lemma update_refuses_unknown_field_witness :
  exists es,
    DocumentPatchRequest.init [("titel", PyStr "New title")] = ValidationError es
    /\ In (mkErr ["titel"] "extra_forbidden") es
    /\ @ClientAsync.update strict_core (Tests.always (Returns Tests.success))
         (new_client Tests.config) "DOC-123" [("titel", PyStr "New title")]
       = (new_client Tests.config, inl (ClientAsync.Invalid es)).
Proof.
  apply (@update_refuses_unknown_field strict_core (Tests.always (Returns Tests.success))
           (new_client Tests.config) "DOC-123" [("titel", PyStr "New title")]
           "titel" (PyStr "New title")); reflexivity.
Defined.

(** X13 at a hit with a field of the index that the model does not name. *)
Lemma search_result_keeps_extra_witness :
  exists r,
    @SearchResult.model_validate strict_core
      (PyDict [("objectID", PyStr "doc-1"); ("title", PyStr "RFC");
               ("_highlightResult", PyDict [])]) = Valid r
    /\ dict_get "_highlightResult" (SearchResult.model_extra r) = Some (PyDict [])
    /\ dict_get "title" (SearchResult.model_extra r) = None.
Proof.
  eexists. split; [reflexivity|]. split.
  - apply (@search_result_keeps_extra strict_core
             [("objectID", PyStr "doc-1"); ("title", PyStr "RFC");
              ("_highlightResult", PyDict [])] _ "_highlightResult" eq_refl).
  - apply (@search_result_keeps_extra strict_core
             [("objectID", PyStr "doc-1"); ("title", PyStr "RFC");
              ("_highlightResult", PyDict [])] _ "title" eq_refl).
Defined.

End RequestScenarios.

(** ** What the facades send *)

Section Facades.
Context `{core : Core}.
Local Open Scope list_scope.

Variable t : transport.
Variable self : client.

(** The requests of a call with a JSON body. *)
Lemma sends (method path : string) (body : pyval) :
  exists m req,
    attempts (fst (request t self (mkCall method path None (Some body) None None) 0))
    = attempts self ++ repeat req (S m)
    /\ sent_method req = method
    /\ sent_url req = get_api_url (config self) path
    /\ sent_json req = Some body.
Proof.
  set (c := mkCall method path None (Some body) None None).
  destruct (request_attempts t c _ self 0 eq_refl) as [m Hm].
  exists m, (build_request (start self) c). split; [exact Hm|].
  rewrite build_request_start. repeat split.
Qed.

(** X14: a search is a POST to [search/<index>] whose body always has the
    query, the page and the page size, and has the filters exactly when
    they are given and not empty. *)
Theorem search_query_payload (q index : string) (filters : option dict)
    (page hits_per_page : Z) :
  dict_get "query" (ClientAsync.search_payload q filters page hits_per_page)
  = Some (PyStr q)
  /\ dict_get "page" (ClientAsync.search_payload q filters page hits_per_page)
     = Some (PyInt page)
  /\ dict_get "hitsPerPage" (ClientAsync.search_payload q filters page hits_per_page)
     = Some (PyInt hits_per_page)
  /\ dict_get "filters" (ClientAsync.search_payload q filters page hits_per_page)
     = match filters with
       | Some (f :: fs) => Some (PyDict (f :: fs))
       | _ => None
       end
  /\ exists m req,
      attempts (fst (ClientAsync.query t self q index filters page hits_per_page))
      = attempts self ++ repeat req (S m)
      /\ sent_method req = "POST"%string
      /\ sent_url req = get_api_url (config self) ("search/" ++ index)%string
      /\ sent_json req
         = Some (PyDict (ClientAsync.search_payload q filters page hits_per_page)).
Proof.
  repeat split; try (destruct filters as [[|f fs]|]; reflexivity).
  destruct (sends "POST" ("search/" ++ index)%string
                  (PyDict (ClientAsync.search_payload q filters page hits_per_page)))
    as (m & req & Hm & Hreq).
  exists m, req. split; [|exact Hreq].
  unfold ClientAsync.query, post.
  destruct (request t self _ 0) as [self' [e|response]]; [exact Hm|].
  destruct (json response) as [payload|]; [|exact Hm].
  destruct (SearchResponse.model_validate payload); exact Hm.
Qed.

(** X15: the body of [update_related_resources] has a key for each
    argument that is given, an empty list included, and no other; it goes
    out as a PUT to [documents/<id>/related-resources]. *)
Theorem related_resources_payload_keys (doc_id : string)
    (external_links hermes_documents : option pyval) :
  (forall k,
      dict_get k (ClientAsync.related_resources_payload external_links hermes_documents)
      = if String.eqb k "externalLinks" then external_links
        else if String.eqb k "hermesDocuments" then hermes_documents
        else None)
  /\ exists m req,
      attempts (fst (ClientAsync.update_related_resources
                       t self doc_id external_links hermes_documents))
      = attempts self ++ repeat req (S m)
      /\ sent_method req = "PUT"%string
      /\ sent_url req
         = get_api_url (config self) ("documents/" ++ doc_id ++ "/related-resources")%string
      /\ sent_json req
         = Some (PyDict (ClientAsync.related_resources_payload
                           external_links hermes_documents)).
Proof.
  split.
  - intros k. destruct external_links, hermes_documents;
      cbn [ClientAsync.related_resources_payload app dict_get];
      destruct (String.eqb_spec k "externalLinks") as [->|_]; try reflexivity;
      destruct (String.eqb k "hermesDocuments"); reflexivity.
  - destruct (sends "PUT" ("documents/" ++ doc_id ++ "/related-resources")%string
                    (PyDict (ClientAsync.related_resources_payload
                               external_links hermes_documents)))
      as (m & req & Hm & Hreq).
    exists m, req. split; [|exact Hreq].
    unfold ClientAsync.update_related_resources, put.
    destruct (request t self _ 0) as [self' [e|response]]; exact Hm.
Qed.

(** X16: when the server answers the content request with a JSON object
    below 400, the result is its [content] when that is a string, the
    empty content when the object has no such key, and a validation error,
    not a document content, for any other value; the document id is the one
    asked for. *)
Theorem get_content_of_response (doc_id : string) (response : Response) (data : dict) :
  t (attempts self)
    (build_request (start self)
       (mkCall "GET" ("documents/" ++ doc_id ++ "/content") None None None None))
  = Returns response ->
  status_code response < 400 ->
  json response = Some (PyDict data) ->
  snd (ClientAsync.get_content t self doc_id)
  = match dict_get "content" data with
    | None => inr (DocumentContent.mk "" (Some doc_id))
    | Some (PyStr text) => inr (DocumentContent.mk text (Some doc_id))
    | Some _ =>
        inl (ClientAsync.Invalid [mkErr ["content"] "string_type"])
    end.
Proof.
  intros Ht Hs Hj. unfold ClientAsync.get_content, get.
  rewrite (request_on_response t _ self 0 response Ht).
  destruct (400 <=? status_code response) eqn:E; [lia|]. rewrite Hj.
  unfold dict_get_default.
  destruct (dict_get "content" data) as [[| | | | | |]|]; reflexivity.
Qed.

End Facades.

Section FacadeScenarios.

(** X16 at a server whose answer has no content. *)
Lemma get_content_of_response_witness :
  snd (ClientAsync.get_content
         (Tests.always (Returns (mkResponse 200 "{}" (Some (PyDict [])) [])))
         (new_client Tests.config) "DOC-123")
  = inr (DocumentContent.mk "" (Some "DOC-123")).
Proof.
  apply (get_content_of_response
           (Tests.always (Returns (mkResponse 200 "{}" (Some (PyDict [])) [])))
           (new_client Tests.config) "DOC-123"
           (mkResponse 200 "{}" (Some (PyDict [])) []) []); reflexivity.
Defined.

End FacadeScenarios.

(** ** Frontmatter *)

Section FrontmatterFields.

Lemma upper_char_idempotent (c : ascii) : upper_char (upper_char c) = upper_char c.
Proof. destruct c as [[] [] [] [] [] [] [] []]; reflexivity. Qed.

Lemma upper_idempotent (s : string) : upper (upper s) = upper s.
Proof.
  induction s as [|c s IH]; [reflexivity|].
  cbn [upper]. now rewrite upper_char_idempotent, IH.
Qed.

(** The only member whose value is in upper case is WIP. *)
Lemma upper_value (s : string) (m : DocumentStatus) :
  upper s = value m -> m = WIP.
Proof.
  intros H. pose proof (upper_idempotent s) as Hi. rewrite H in Hi.
  destruct m; try reflexivity; discriminate.
Qed.

Lemma DocumentStatus_of_value (m : DocumentStatus) :
  DocumentStatus_of (value m) = Some m.
Proof. destruct m; reflexivity. Qed.

(** X17: the status of a frontmatter is the member whose value it is,
    written exactly; the second try in upper case recovers WIP written in
    any case and nothing else, so a status like "approved" is dropped. *)
Theorem parse_status_by_value_or_WIP (s : string) (m : DocumentStatus) :
  Utils.parse_status (PyStr s) = inr (Some m)
  <-> s = value m \/ (upper s = "WIP" /\ m = WIP).
Proof.
  unfold Utils.parse_status. cbn [truthy]. split.
  - destruct (String.eqb_spec s ""); cbn [negb]; [discriminate|].
    destruct (DocumentStatus_of s) as [m'|] eqn:E.
    + intros [= <-]. left. now apply DocumentStatus_of_some.
    + intros [= H]. apply DocumentStatus_of_some in H. right.
      pose proof (upper_value s m H) as ->. now split.
  - intros [->|[Hu ->]].
    + rewrite DocumentStatus_of_value. now destruct m.
    + destruct (String.eqb_spec s "") as [->|_]; [discriminate|]. cbn [negb].
      destruct (DocumentStatus_of s) as [m'|] eqn:E.
      * apply DocumentStatus_of_some in E. subst s.
        destruct m'; try reflexivity; discriminate.
      * now rewrite Hu.
Qed.






End FrontmatterFields.

(** ** Users *)

Section Users.

(** X20: the display name of a user is the name when there is one that is
    not empty and the e-mail address otherwise, so it is not empty as long
    as the address is not. *)
Theorem display_name_not_empty (u : User.t) :
  (forall n, User.name u = Some n -> n <> "" -> User.display_name u = n)
  /\ (User.name u = None \/ User.name u = Some "" ->
      User.display_name u = User.email_address u)
  /\ (User.email_address u <> "" -> User.display_name u <> "").
Proof.
  unfold User.display_name, str_truthy. split; [|split].
  - intros n -> Hn. destruct (String.eqb_spec n ""); [contradiction | reflexivity].
  - intros [->| ->]; reflexivity.
  - intros He. destruct (User.name u) as [n|]; [|exact He].
    destruct (String.eqb_spec n ""); [exact He | assumption].
Qed.

(** X20 at the two users of [test_user_model]. *)
Lemma display_name_not_empty_witness :
  User.display_name
    (User.mk (Some 1) "test@example.com" (Some "Test") (Some "User") (Some "Test User")
             None None None) = "Test User"
  /\ User.display_name
       (User.mk (Some 2) "nolabel@example.com" None None None None None None)
     = "nolabel@example.com".
Proof.
  split.
  - apply (proj1 (display_name_not_empty
                    (User.mk (Some 1) "test@example.com" (Some "Test") (Some "User")
                             (Some "Test User") None None None)) "Test User");
      [reflexivity | discriminate].
  - apply (proj1 (proj2 (display_name_not_empty
                           (User.mk (Some 2) "nolabel@example.com" None None None None
                                    None None)))).
    now left.
Defined.

End Users.

(** ** Templates, for every input *)

Section Lines.

Lemma plain_char_not_space (c : ascii) :
  Yaml.plain_char c = true -> Ascii.eqb c " " = false -> is_space c = false.
Proof. destruct c as [[] [] [] [] [] [] [] []]; vm_compute; congruence. Qed.

Lemma plain_char_one_line (c : ascii) :
  Yaml.plain_char c = true -> Ascii.eqb c (ascii_of_nat 10) = false.
Proof. destruct c as [[] [] [] [] [] [] [] []]; vm_compute; congruence. Qed.

Lemma letter_not_space (c : ascii) : Yaml.is_letter c = true -> is_space c = false.
Proof. destruct c as [[] [] [] [] [] [] [] []]; vm_compute; congruence. Qed.

Lemma letter_not_dash (c : ascii) : Yaml.is_letter c = true -> Ascii.eqb c "-" = false.
Proof. destruct c as [[] [] [] [] [] [] [] []]; vm_compute; congruence. Qed.

Lemma all_plain_one_line (s : string) : Yaml.all_plain s = true -> one_line s = true.
Proof.
  induction s as [|c s IH]; [reflexivity|].
  cbn [Yaml.all_plain one_line]. rewrite !andb_true_iff. intros [[Hc _] Hs].
  now rewrite (plain_char_one_line c Hc), IH.
Qed.

Lemma all_plain_last (s : string) :
  Yaml.all_plain s = true -> s <> "" -> not_space (last_char s) = true.
Proof.
  induction s as [|c s IH]; [congruence|].
  cbn [Yaml.all_plain]. rewrite !andb_true_iff. intros [[Hc Hn] Hs] _.
  destruct s as [|d s].
  - cbn [last_char not_space]. apply negb_true_iff in Hn.
    now rewrite (plain_char_not_space c Hc Hn).
  - change (last_char (String c (String d s))) with (last_char (String d s)).
    apply IH; [exact Hs | discriminate].
Qed.

(** What a plain string is made of. *)
Lemma plain_facts (s : string) :
  Yaml.plain s = true ->
  one_line s = true
  /\ not_space (last_char s) = true
  /\ exists c rest, s = String c rest /\ Yaml.is_letter c = true.
Proof.
  unfold Yaml.plain. destruct s as [|c rest]; [discriminate|].
  rewrite !andb_true_iff. intros [[Hc Hall] _]. split; [now apply all_plain_one_line|].
  split; [apply all_plain_last; [exact Hall | discriminate]|].
  now exists c, rest.
Qed.

Lemma one_line_app (a b : string) :
  one_line (a ++ b) = one_line a && one_line b.
Proof.
  induction a as [|c a IH]; [reflexivity|].
  cbn [append one_line]. rewrite IH. now rewrite andb_assoc.
Qed.

Lemma last_char_app (a b : string) :
  b <> "" -> last_char (a ++ b) = last_char b.
Proof.
  intros Hb. induction a as [|c a IH]; [reflexivity|].
  cbn [append]. destruct (a ++ b) eqn:E.
  - destruct a, b; cbn in E; congruence.
  - exact IH.
Qed.

Lemma rstrip_keeps (s : string) :
  not_space (last_char s) = true -> rstrip whitespace s = s.
Proof.
  induction s as [|c s IH]; [discriminate|].
  destruct s as [|d s].
  - cbn [last_char not_space is_space rstrip]. intros H.
    apply negb_true_iff in H. unfold is_space in H. now rewrite H.
  - intros H. change (last_char (String c (String d s))) with (last_char (String d s)) in H.
    change (rstrip whitespace (String c (String d s)))
      with (match rstrip whitespace (String d s) with
            | EmptyString =>
                if mem_char c whitespace then EmptyString else String c EmptyString
            | r => String c r
            end).
    now rewrite (IH H).
Qed.

Lemma rstrip_line_feed (s : string) :
  rstrip whitespace (s ++ Yaml.nl) = rstrip whitespace s.
Proof.
  induction s as [|c s IH]; [reflexivity|].
  cbn [append rstrip]. now rewrite IH.
Qed.

Lemma lstrip_keeps (s : string) :
  not_space (first_char s) = true -> lstrip whitespace s = s.
Proof.
  destruct s as [|c s]; [discriminate|].
  cbn [first_char not_space is_space lstrip]. intros H.
  apply negb_true_iff in H. unfold is_space in H. now rewrite H.
Qed.

(** A text that neither starts nor ends with a space loses its last line
    feed and nothing else when it is stripped. *)
Lemma strip_line_feed (s : string) :
  not_space (first_char s) = true ->
  not_space (last_char s) = true ->
  strip (s ++ Yaml.nl) = s.
Proof.
  intros Hf Hl. unfold strip.
  now rewrite rstrip_line_feed, (rstrip_keeps s Hl), (lstrip_keeps s Hf).
Qed.

Lemma split_on_one_line (s : string) :
  one_line s = true -> Yaml.split_on (ascii_of_nat 10) s = [s].
Proof.
  induction s as [|c s IH]; [reflexivity|].
  cbn [one_line Yaml.split_on]. rewrite andb_true_iff. intros [Hc Hs].
  apply negb_true_iff in Hc. now rewrite Hc, (IH Hs).
Qed.

Lemma split_on_line (l rest : string) :
  one_line l = true ->
  Yaml.split_on (ascii_of_nat 10) (l ++ Yaml.nl ++ rest)
  = l :: Yaml.split_on (ascii_of_nat 10) rest.
Proof.
  induction l as [|c l IH]; [reflexivity|].
  cbn [one_line]. rewrite andb_true_iff. intros [Hc Hl].
  apply negb_true_iff in Hc.
  change ((String c l ++ Yaml.nl ++ rest)%string)
    with (String c (l ++ Yaml.nl ++ rest)).
  cbn [Yaml.split_on]. now rewrite Hc, (IH Hl).
Qed.

(** The lines of lines put together are these lines. *)
Lemma lines_unlines (l : string) (ls : list string) :
  forallb one_line (l :: ls) = true ->
  Yaml.lines (Frontmatter.unlines (l :: ls)) = l :: ls.
Proof.
  unfold Yaml.lines, Frontmatter.unlines. revert l.
  induction ls as [|l' ls IH]; intros l; cbn [forallb String.concat].
  - rewrite andb_true_r. apply split_on_one_line.
  - rewrite andb_true_iff. intros [Hl Hls].
    rewrite (split_on_line l _ Hl). f_equal. now apply IH.
Qed.

End Lines.

Section Dumping.

Lemma str_app_assoc (a b c : string) : ((a ++ b) ++ c)%string = (a ++ b ++ c)%string.
Proof. induction a as [|x a IH]; [reflexivity|]. cbn [append]. now rewrite IH. Qed.

Lemma str_app_nil_r (a : string) : (a ++ "")%string = a.
Proof. induction a as [|x a IH]; [reflexivity|]. cbn [append]. now rewrite IH. Qed.

Lemma concat_empty_app (a b : list string) :
  String.concat "" (a ++ b) = (String.concat "" a ++ String.concat "" b)%string.
Proof.
  induction a as [|x a IH]; [reflexivity|].
  destruct a as [|y a].
  - cbn [app String.concat]. destruct b; cbn [String.concat append];
      [now rewrite str_app_nil_r | reflexivity].
  - change (String.concat "" ((x :: y :: a) ++ b))
      with (x ++ "" ++ String.concat "" ((y :: a) ++ b))%string.
    rewrite IH. cbn [String.concat append]. now rewrite str_app_assoc.
Qed.

Lemma text_of_lines_app (a b : list string) :
  text_of_lines (a ++ b) = (text_of_lines a ++ text_of_lines b)%string.
Proof. unfold text_of_lines. now rewrite map_app, concat_empty_app. Qed.

Lemma text_of_lines_cons (l : string) (ls : list string) :
  text_of_lines (l :: ls) = (l ++ Yaml.nl ++ text_of_lines ls)%string.
Proof.
  change (l :: ls) with ([l] ++ ls)%list. rewrite text_of_lines_app.
  unfold text_of_lines at 1. cbn [map String.concat]. now rewrite str_app_assoc.
Qed.

(** Lines that each end with a line feed are the lines joined by line
    feeds, and one more line feed. *)
Lemma text_of_lines_unlines (l : string) (ls : list string) :
  text_of_lines (l :: ls) = (Frontmatter.unlines (l :: ls) ++ Yaml.nl)%string.
Proof.
  revert l. induction ls as [|l' ls IH]; intros l.
  - rewrite text_of_lines_cons. reflexivity.
  - rewrite text_of_lines_cons, IH. unfold Frontmatter.unlines.
    cbn [String.concat]. now rewrite !str_app_assoc.
Qed.

Lemma dump_entry_text (kv : string * Yaml.node) (text : string) :
  Yaml.dump_entry kv = Some text ->
  plain_entry kv = true /\ text = text_of_lines (entry_lines kv).
Proof.
  destruct kv as [k v]. unfold Yaml.dump_entry, plain_entry, entry_lines.
  cbn [fst snd]. destruct (Yaml.plain_key k); [|discriminate]. cbn [andb].
  destruct v as [s|[|i items]]; try discriminate.
  - destruct (Yaml.plain s); cbn [andb]; [|discriminate].
    destruct (Yaml.fits _); [|discriminate]. intros [= <-]. split; [reflexivity|].
    rewrite text_of_lines_cons. unfold text_of_lines. cbn [map String.concat].
    now rewrite !str_app_assoc, str_app_nil_r.
  - destruct (Yaml.all_plain_items (i :: items)); cbn [andb]; [|discriminate].
    destruct (forallb _ _); [|discriminate]. intros [= <-]. split; [reflexivity|].
    rewrite text_of_lines_cons. unfold text_of_lines. rewrite map_map.
    rewrite !str_app_assoc. f_equal.
    destruct items as [|j items]; cbn; [reflexivity|].
    now rewrite !str_app_assoc.
Qed.

Lemma dump_text (data : list (string * Yaml.node)) (text : string) :
  Yaml.dump data = Some text ->
  data <> []
  /\ forallb plain_entry data = true
  /\ text = text_of_lines (flat_map entry_lines data).
Proof.
  revert text. induction data as [|kv data IH]; intros text; [discriminate|].
  destruct data as [|kv' data].
  - cbn [Yaml.dump]. intros H. apply dump_entry_text in H as [Hp ->].
    split; [discriminate|]. cbn [forallb flat_map]. now rewrite Hp, app_nil_r.
  - change (Yaml.dump (kv :: kv' :: data))
      with (match Yaml.dump_entry kv, Yaml.dump (kv' :: data) with
            | Some a, Some b => Some (a ++ b)%string
            | _, _ => None
            end).
    destruct (Yaml.dump_entry kv) as [a|] eqn:Ea; [|discriminate].
    destruct (Yaml.dump (kv' :: data)) as [b|] eqn:Eb; [|discriminate].
    intros [= <-]. apply dump_entry_text in Ea as [Hp ->].
    destruct (IH b eq_refl) as (_ & Hall & ->).
    split; [discriminate|]. split.
    + change (forallb plain_entry (kv :: kv' :: data))
        with (plain_entry kv && forallb plain_entry (kv' :: data)).
      now rewrite Hp, Hall.
    + change (flat_map entry_lines (kv :: kv' :: data))
        with (entry_lines kv ++ flat_map entry_lines (kv' :: data))%list.
      now rewrite text_of_lines_app.
Qed.

End Dumping.

Section Loading.
Local Open Scope list_scope.

Lemma split_key_cons (c : ascii) (x : string) :
  (Yaml.is_letter c || Yaml.is_digit c || Ascii.eqb c "_") = true ->
  Yaml.split_key (String c x)
  = match Yaml.split_key x with
    | Some (k, v) => Some (String c k, v)
    | None => None
    end.
Proof.
  destruct c as [[] [] [] [] [] [] [] []]; intros H;
    try (vm_compute in H; discriminate H); reflexivity.
Qed.

Lemma split_key_of (k x : string) :
  Yaml.key_chars k = true ->
  Yaml.split_key (k ++ String ":" x) = Some (k, x).
Proof.
  induction k as [|c k IH]; [reflexivity|].
  cbn [Yaml.key_chars]. rewrite andb_true_iff. intros [Hc Hk].
  cbn [append]. now rewrite (split_key_cons c _ Hc), (IH Hk).
Qed.

Lemma plain_key_facts (k : string) :
  Yaml.plain_key k = true ->
  Yaml.key_chars k = true
  /\ exists c rest, k = String c rest /\ Yaml.is_letter c = true.
Proof.
  unfold Yaml.plain_key. rewrite andb_true_iff. intros [Hp Hk].
  split; [exact Hk|]. now apply plain_facts in Hp as (_ & _ & H).
Qed.

Lemma not_an_item (c : ascii) (x : string) :
  Yaml.is_letter c = true -> Yaml.after_prefix "- " (String c x) = None.
Proof.
  intros Hc. cbn [Yaml.after_prefix].
  now rewrite Ascii.eqb_sym, (letter_not_dash c Hc).
Qed.

Lemma read_scalar_line (r : Yaml.reader) (es : dict) (k s : string) :
  Yaml.plain_key k = true ->
  Yaml.plain s = true ->
  Yaml.close r = Some es ->
  dict_has k es = false ->
  Yaml.read_line r (k ++ ": " ++ s)%string
  = Some (Yaml.mkReader (es ++ [(k, PyStr s)]) None).
Proof.
  intros Hk Hs Hr Hes.
  destruct (plain_key_facts k Hk) as (Hchars & c & rest & -> & Hc).
  unfold Yaml.read_line.
  change ((String c rest ++ ": " ++ s)%string) with (String c (rest ++ ": " ++ s)%string).
  cbn [String.eqb]. rewrite (not_an_item c _ Hc), Hr.
  change (String c (rest ++ ": " ++ s)%string)
    with ((String c rest ++ String ":" (" " ++ s))%string).
  rewrite (split_key_of _ _ Hchars), Hk, Hes. cbn [negb orb Yaml.after_prefix append].
  cbn [Ascii.eqb Bool.eqb]. now rewrite Hs.
Qed.

Lemma read_key_line (r : Yaml.reader) (es : dict) (k : string) :
  Yaml.plain_key k = true ->
  Yaml.close r = Some es ->
  dict_has k es = false ->
  Yaml.read_line r (k ++ ":")%string = Some (Yaml.mkReader es (Some (k, []))).
Proof.
  intros Hk Hr Hes.
  destruct (plain_key_facts k Hk) as (Hchars & c & rest & -> & Hc).
  unfold Yaml.read_line.
  change ((String c rest ++ ":")%string) with (String c (rest ++ ":")%string).
  cbn [String.eqb]. rewrite (not_an_item c _ Hc), Hr.
  change (String c (rest ++ ":")%string) with ((String c rest ++ String ":" "")%string).
  rewrite (split_key_of _ _ Hchars), Hk, Hes. reflexivity.
Qed.

Lemma read_item_lines (es : dict) (k : string) (items : list string) :
  Yaml.all_plain_items items = true ->
  forall (acc : list string) (more : list string),
    Yaml.read_lines (Yaml.mkReader es (Some (k, acc)))
                    (map (fun i => ("- " ++ i)%string) items ++ more)
    = Yaml.read_lines (Yaml.mkReader es (Some (k, acc ++ items))) more.
Proof.
  induction items as [|i items IH]; intros Hall acc more.
  - now rewrite app_nil_r.
  - cbn [Yaml.all_plain_items] in Hall. apply andb_prop in Hall as [Hi Hall].
    cbn [map app Yaml.read_lines]. unfold Yaml.read_line at 1.
    cbn [append String.eqb Yaml.after_prefix Ascii.eqb Bool.eqb Yaml.pending Yaml.entries].
    rewrite Hi, (IH Hall), <- app_assoc. reflexivity.
Qed.

Lemma dict_has_snoc (k k' : string) (v : pyval) (es : dict) :
  dict_has k (es ++ [(k', v)]) = dict_has k es || String.eqb k k'.
Proof.
  rewrite dict_has_app. f_equal. unfold dict_has. cbn [dict_get].
  now destruct (String.eqb k k').
Qed.

(** Reading the lines of entries that were dumped gives the entries back. *)
Lemma read_entries (data : list (string * Yaml.node)) :
  forallb plain_entry data = true ->
  NoDup (map fst data) ->
  forall (r : Yaml.reader) (es : dict) (more : list string),
    Yaml.close r = Some es ->
    (forall kv, In kv data -> dict_has (fst kv) es = false) ->
    exists r',
      Yaml.read_lines r (flat_map entry_lines data ++ more) = Yaml.read_lines r' more
      /\ Yaml.close r' = Some (es ++ map loaded data).
Proof.
  induction data as [|[k v] data IH]; intros Hall Hnd r es more Hr Hes.
  - exists r. split; [reflexivity|]. now rewrite app_nil_r.
  - cbn [forallb] in Hall. apply andb_prop in Hall as [Hkv Hall].
    cbn [map fst] in Hnd. inversion Hnd as [|? ? Hk Hnd']; subst.
    unfold plain_entry in Hkv. cbn [fst snd] in Hkv.
    apply andb_prop in Hkv as [Hkey Hval].
    assert (Hkes : dict_has k es = false) by (apply (Hes (k, v)); now left).
    assert (Hrest : forall w kv, In kv data -> dict_has (fst kv) (es ++ [(k, w)]) = false).
    { intros w kv Hin. rewrite dict_has_snoc, (Hes kv) by now right. cbn [orb].
      apply String.eqb_neq. intros E. apply Hk. rewrite <- E. now apply in_map. }
    cbn [flat_map]. unfold entry_lines at 1. cbn [fst snd].
    destruct v as [s|[|i items]]; [| discriminate |].
    + cbn [app Yaml.read_lines].
      rewrite (read_scalar_line r es k s Hkey Hval Hr Hkes).
      destruct (IH Hall Hnd' (Yaml.mkReader (es ++ [(k, PyStr s)]) None)
                   (es ++ [(k, PyStr s)]) more eq_refl (Hrest (PyStr s)))
        as (r' & Hread & Hclose).
      exists r'. split; [exact Hread|]. rewrite Hclose.
      cbn [map loaded fst snd]. now rewrite <- app_assoc.
    + rewrite <- app_assoc. cbn [app Yaml.read_lines].
      rewrite (read_key_line r es k Hkey Hr Hkes).
      rewrite (read_item_lines es k (i :: items) Hval). cbn [app].
      destruct (IH Hall Hnd' (Yaml.mkReader es (Some (k, i :: items)))
                   (es ++ [(k, PyList (map PyStr (i :: items)))]) more eq_refl
                   (Hrest (PyList (map PyStr (i :: items)))))
        as (r' & Hread & Hclose).
      exists r'. split; [exact Hread|]. rewrite Hclose.
      cbn [map loaded fst snd]. now rewrite <- app_assoc.
Qed.

(** No line of an entry is taken for the end of the frontmatter. *)
Lemma entry_lines_no_boundary (kv : string * Yaml.node) :
  plain_entry kv = true ->
  forallb (fun l => negb (Frontmatter.is_boundary l)) (entry_lines kv) = true.
Proof.
  destruct kv as [k v]. unfold plain_entry, entry_lines. cbn [fst snd].
  rewrite andb_true_iff. intros [Hk _].
  destruct (plain_key_facts k Hk) as (_ & c & rest & -> & Hc).
  assert (Hfirst : forall x, Frontmatter.is_boundary (String c rest ++ x)%string = false).
  { intros x. unfold Frontmatter.is_boundary. cbn [append lstrip mem_char].
    rewrite (letter_not_dash c Hc). cbn [orb]. now rewrite Nat.sub_diag. }
  destruct v as [s|items]; cbn [forallb]; rewrite Hfirst; cbn [negb andb];
    [reflexivity|].
  induction items as [|i items IH]; [reflexivity|].
  cbn [map forallb]. rewrite IH, andb_true_r.
  unfold Frontmatter.is_boundary.
  cbn [append lstrip mem_char Ascii.eqb Bool.eqb orb String.length].
  replace (S (S (String.length i)) - S (String.length i))%nat with 1%nat by lia.
  reflexivity.
Qed.

Lemma break_after_entries (ls rest : list string) :
  forallb (fun l => negb (Frontmatter.is_boundary l)) ls = true ->
  Frontmatter.break_at_boundary (ls ++ "---"%string :: rest) = Some (ls, rest).
Proof.
  induction ls as [|l ls IH]; [reflexivity|].
  cbn [forallb app Frontmatter.break_at_boundary]. rewrite andb_true_iff.
  intros [Hl Hls]. apply negb_true_iff in Hl. now rewrite Hl, (IH Hls).
Qed.

End Loading.

Section TemplateText.
Local Open Scope list_scope.

Lemma unlines_cons (l l' : string) (ls : list string) :
  Frontmatter.unlines (l :: l' :: ls)
  = (l ++ Yaml.nl ++ Frontmatter.unlines (l' :: ls))%string.
Proof. reflexivity. Qed.

Lemma unlines_app (ls : list string) :
  forall (l b : string) (bs : list string),
    (Frontmatter.unlines (l :: ls) ++ Yaml.nl ++ Frontmatter.unlines (b :: bs))%string
    = Frontmatter.unlines ((l :: ls) ++ b :: bs).
Proof.
  induction ls as [|l' ls IH]; intros l b bs.
  - reflexivity.
  - cbn [app]. rewrite !unlines_cons, str_app_assoc, str_app_assoc.
    cbn [app] in IH. now rewrite IH.
Qed.

Lemma unlines_nested (x b : string) (l : string) (ls bs : list string) :
  Frontmatter.unlines (x :: Frontmatter.unlines (l :: ls) :: b :: bs)
  = Frontmatter.unlines (x :: (l :: ls) ++ b :: bs).
Proof.
  rewrite unlines_cons, (unlines_cons (Frontmatter.unlines (l :: ls))), unlines_app.
  reflexivity.
Qed.

Lemma unlines_snoc_empty (l : string) (ls : list string) :
  Frontmatter.unlines ((l :: ls) ++ [""%string])
  = (Frontmatter.unlines (l :: ls) ++ Yaml.nl)%string.
Proof.
  rewrite <- unlines_app. unfold Frontmatter.unlines at 2. cbn [String.concat].
  reflexivity.
Qed.

Lemma last_char_some_not_empty (s : string) :
  not_space (last_char s) = true -> s <> ""%string.
Proof. destruct s; [discriminate | discriminate]. Qed.

Lemma last_char_unlines_snoc (z : string) (ls : list string) :
  not_space (last_char z) = true ->
  last_char (Frontmatter.unlines (ls ++ [z])) = last_char z.
Proof.
  intros Hz. induction ls as [|l ls IH]; [reflexivity|].
  assert (Hne : Frontmatter.unlines (ls ++ [z]) <> ""%string).
  { apply last_char_some_not_empty. now rewrite IH. }
  destruct (ls ++ [z]) as [|l' rest] eqn:E; [now destruct ls|].
  cbn [app]. rewrite E, unlines_cons.
  rewrite last_char_app by discriminate.
  unfold Yaml.nl. cbn [append]. destruct (Frontmatter.unlines (l' :: rest)) eqn:Eu;
    [congruence | exact IH].
Qed.

Lemma good_lines_last (l : string) (ls : list string) :
  forallb good_line (l :: ls) = true ->
  not_space (last_char (Frontmatter.unlines (l :: ls))) = true.
Proof.
  intros Hall. destruct (exists_last (l := l :: ls)) as (P & z & E); [discriminate|].
  rewrite E in *. rewrite forallb_app in Hall. apply andb_prop in Hall as [_ Hz].
  cbn [forallb] in Hz. rewrite andb_true_r in Hz. unfold good_line in Hz.
  apply andb_prop in Hz as [_ Hz]. now rewrite (last_char_unlines_snoc z P Hz).
Qed.

Lemma plain_good (s : string) : Yaml.plain s = true -> good_line s = true.
Proof.
  intros H. apply plain_facts in H as (H1 & H2 & _). unfold good_line.
  now rewrite H1, H2.
Qed.

Lemma good_line_app (a b : string) :
  one_line a = true -> good_line b = true -> good_line (a ++ b) = true.
Proof.
  unfold good_line. rewrite !andb_true_iff. intros Ha [Hb Hl].
  rewrite one_line_app, Ha, Hb. split; [reflexivity|].
  rewrite last_char_app; [exact Hl | now apply last_char_some_not_empty].
Qed.

Lemma entry_lines_good (kv : string * Yaml.node) :
  plain_entry kv = true -> forallb good_line (entry_lines kv) = true.
Proof.
  destruct kv as [k v]. unfold plain_entry, entry_lines. cbn [fst snd].
  rewrite andb_true_iff. intros [Hk Hv].
  unfold Yaml.plain_key in Hk. apply andb_prop in Hk as [Hk _].
  pose proof (plain_facts k Hk) as (Hk1 & _ & _).
  destruct v as [s|[|i items]]; [| discriminate |].
  - cbn [forallb]. rewrite andb_true_r.
    apply good_line_app; [exact Hk1|].
    apply (good_line_app ": "%string); [reflexivity | now apply plain_good].
  - assert (Hitems : forall l, Yaml.all_plain_items l = true ->
                               forallb good_line (map (fun i => ("- " ++ i)%string) l) = true).
    { induction l as [|j l IHl]; [reflexivity|].
      cbn [Yaml.all_plain_items map forallb]. rewrite !andb_true_iff. intros [Hj Hl].
      split; [|now apply IHl].
      apply (good_line_app "- "%string); [reflexivity | now apply plain_good]. }
    cbn [forallb]. rewrite (Hitems _ Hv), andb_true_r.
    apply (good_line_app k ":"%string); [exact Hk1 | reflexivity].
Qed.

Lemma entries_lines_good (data : list (string * Yaml.node)) :
  forallb plain_entry data = true ->
  forallb good_line (flat_map entry_lines data) = true.
Proof.
  induction data as [|kv data IH]; [reflexivity|].
  cbn [forallb flat_map]. rewrite andb_true_iff, forallb_app. intros [Hkv Hall].
  now rewrite (entry_lines_good kv Hkv), (IH Hall).
Qed.

Lemma entries_lines_no_boundary (data : list (string * Yaml.node)) :
  forallb plain_entry data = true ->
  forallb (fun l => negb (Frontmatter.is_boundary l)) (flat_map entry_lines data) = true.
Proof.
  induction data as [|kv data IH]; [reflexivity|].
  cbn [forallb flat_map]. rewrite andb_true_iff, forallb_app. intros [Hkv Hall].
  now rewrite (entry_lines_no_boundary kv Hkv), (IH Hall).
Qed.

Lemma good_lines_one_line (ls : list string) :
  forallb good_line ls = true -> forallb one_line ls = true.
Proof.
  induction ls as [|l ls IH]; [reflexivity|].
  cbn [forallb]. unfold good_line at 1. rewrite !andb_true_iff.
  intros [[H _] Hls]. split; [exact H | now apply IH].
Qed.

(** The first line of a first entry whose key starts with a letter. *)
Lemma entries_first_line (kv : string * Yaml.node) (data : list (string * Yaml.node)) :
  plain_entry kv = true ->
  exists c rest ls,
    flat_map entry_lines (kv :: data) = String c rest :: ls
    /\ Yaml.is_letter c = true.
Proof.
  destruct kv as [k v]. unfold plain_entry. cbn [fst snd].
  rewrite andb_true_iff. intros [Hk _].
  destruct (plain_key_facts k Hk) as (_ & c & rest & -> & Hc).
  cbn [flat_map]. unfold entry_lines at 1. cbn [fst snd].
  destruct v as [s|items]; cbn [app append]; eauto.
Qed.

(** A text made of a frontmatter that was dumped and of a body is split
    into the entries that were dumped and the body. *)
Lemma loads_dumped (kv : string * Yaml.node) (data : list (string * Yaml.node))
    (body : list string) (z : string) :
  forallb plain_entry (kv :: data) = true ->
  NoDup (map fst (kv :: data)) ->
  forallb one_line body = true ->
  good_line z = true ->
  Frontmatter.loads
    (Frontmatter.unlines
       ("---"%string
        :: strip (text_of_lines (flat_map entry_lines (kv :: data)))
        :: "---"%string :: body ++ [z; ""%string]))
  = Some (map loaded (kv :: data), strip (Frontmatter.unlines (body ++ [z]))).
Proof.
  intros Hall Hnd Hbody Hz.
  pose proof (entries_lines_good _ Hall) as Hgood.
  pose proof (entries_lines_no_boundary _ Hall) as Hnob.
  assert (Hkv : plain_entry kv = true) by (cbn [forallb] in Hall; now apply andb_prop in Hall).
  destruct (entries_first_line kv data Hkv) as (c & rest & E' & HE & Hc).
  set (E := flat_map entry_lines (kv :: data)) in *.
  destruct (read_entries (kv :: data) Hall Hnd (Yaml.mkReader [] None) [] [] eq_refl)
    as (r' & Hread & Hclose); [reflexivity|].
  fold E in Hread. rewrite app_nil_r in Hread. cbn [app] in Hclose.
  rewrite HE in *.
  (* the YAML block *)
  rewrite text_of_lines_unlines, strip_line_feed;
    [| cbn [Frontmatter.unlines String.concat]; destruct E';
       cbn [String.concat append first_char not_space]; now rewrite (letter_not_space c Hc)
     | now apply good_lines_last].
  (* the text *)
  replace (body ++ [z; ""%string]) with ((body ++ [z]) ++ [""%string])
    by (now rewrite <- app_assoc).
  rewrite unlines_nested.
  replace ("---"%string :: (String c rest :: E') ++ "---"%string :: (body ++ [z]) ++ [""%string])
    with (("---"%string :: (String c rest :: E') ++ "---"%string :: body ++ [z])
          ++ [""%string])
    by (cbn [app]; do 2 f_equal; rewrite <- app_assoc; reflexivity).
  rewrite unlines_snoc_empty.
  unfold Frontmatter.loads.
  assert (Hlast : last_char
                    (Frontmatter.unlines
                       ("---"%string :: (String c rest :: E') ++ "---"%string :: body ++ [z]))
                  = last_char z).
  { replace ("---"%string :: (String c rest :: E') ++ "---"%string :: body ++ [z])
      with (("---"%string :: (String c rest :: E') ++ "---"%string :: body) ++ [z])
      by (cbn [app]; do 2 f_equal; rewrite <- app_assoc; reflexivity).
    apply last_char_unlines_snoc. unfold good_line in Hz. now apply andb_prop in Hz. }
  rewrite strip_line_feed;
    [| reflexivity
     | rewrite Hlast; unfold good_line in Hz; now apply andb_prop in Hz].
  rewrite lines_unlines.
  - cbn [Frontmatter.is_boundary]. change (Frontmatter.is_boundary "---") with true.
    cbv iota. rewrite (break_after_entries _ _ Hnob).
    unfold Yaml.load. rewrite lines_unlines by now apply good_lines_one_line.
    rewrite Hread. cbn [Yaml.read_lines]. rewrite Hclose. reflexivity.
  - change ("---"%string :: (String c rest :: E') ++ "---"%string :: body ++ [z])
      with (["---"%string] ++ (String c rest :: E') ++ ["---"%string] ++ body ++ [z]).
    rewrite !forallb_app, (good_lines_one_line _ Hgood), Hbody.
    unfold good_line in Hz. apply andb_prop in Hz as [Hz _].
    cbn [forallb andb]. now rewrite Hz.
Qed.

End TemplateText.

Section TemplateRoundTrip.
Local Open Scope list_scope.

Lemma given_cases (key : string) (v : option string) (node : string -> Yaml.node) :
  Utils.given key v node
  = match given_value v with
    | Some s => [(key, node s)]
    | None => []
    end.
Proof.
  unfold Utils.given, given_value, str_truthy.
  destruct v as [s|]; [|reflexivity]. now destruct (String.eqb s "").
Qed.

Lemma summary_or_default_cases (summary : option string) :
  Utils.summary_or_default summary
  = match given_value summary with
    | Some s => s
    | None => "Brief description of this document."%string
    end.
Proof.
  unfold Utils.summary_or_default, given_value, str_truthy.
  destruct summary as [s|]; [|reflexivity]. now destruct (String.eqb s "").
Qed.

Lemma plain_scalar_in (data : list (string * Yaml.node)) (k s : string) :
  forallb plain_entry data = true ->
  In (k, Yaml.Scalar s) data ->
  Yaml.plain s = true.
Proof.
  intros Hall Hin. rewrite forallb_forall in Hall. specialize (Hall _ Hin).
  unfold plain_entry in Hall. cbn [fst snd] in Hall. now apply andb_prop in Hall.
Qed.

(** The steps shared by the eight combinations of optional parameters. *)
Ltac round_trip Hall :=
  match goal with
  | |- context [Frontmatter.unlines
                  ("---"%string :: strip (text_of_lines (flat_map entry_lines (?kv :: ?data)))
                   :: _)] =>
      let Hl := fresh "Hl" in
      match goal with
      | |- context [Frontmatter.unlines
                      [_; _; _; _; ?l1; _; _; _; ?l5; _; _; _; _; _; _; _; _; _; _; _;
                       _; _; _; _; _; _; _; _; _; ?z; _]] =>
          pose proof (loads_dumped kv data
                        [""%string; l1; ""%string; "## Summary"%string; ""%string; l5;
                         ""%string; "## Background"%string; ""%string;
                         "Provide context and motivation for this document."%string;
                         ""%string; "## Proposal"%string; ""%string;
                         "Describe the proposed solution or feature."%string;
                         ""%string; "## Alternatives Considered"%string; ""%string;
                         "What other approaches were considered and why were they not chosen?"%string;
                         ""%string; "## Open Questions"%string; ""%string;
                         "- Question 1?"%string; "- Question 2?"%string; ""%string;
                         "## References"%string; ""%string]
                        z Hall) as Hl
      end
  end.

(** X21: whenever a template is made, with or without product, author
    and summary, parsing it gives a document with the title, the type, the
    product and the summary it was made with, the status WIP, and the
    author as its only contributor. *)
Theorem template_round_trip_for_all (doc_type title : string)
    (product author summary : option string) (template : string) :
  Utils.create_document_template doc_type title product author summary = Some template ->
  exists parsed,
    Utils.parse_string (Utils.new_DocumentParser None None) template = Some (inr parsed)
    /\ Utils.title parsed = PyStr title
    /\ Utils.doc_type parsed = PyStr doc_type
    /\ Utils.status parsed = Some WIP
    /\ Utils.product parsed
       = match given_value product with Some p => PyStr p | None => PyNone end
    /\ Utils.summary parsed
       = match given_value summary with Some s => PyStr s | None => PyNone end
    /\ Utils.contributors parsed
       = match given_value author with Some a => PyList [PyStr a] | None => PyList [] end.
Proof.
  unfold Utils.create_document_template.
  rewrite !given_cases, summary_or_default_cases.
  destruct (given_value product) as [p|], (given_value summary) as [sm|],
    (given_value author) as [a|]; cbn [app];
    (destruct (Yaml.dump _) as [yaml|] eqn:Hdump; [|discriminate]);
    intros [= <-]; apply dump_text in Hdump as (_ & Hall & ->);
    pose proof (plain_scalar_in _ "title" title Hall ltac:(cbn; tauto)) as Htitle;
    pose proof (plain_scalar_in _ "docType" doc_type Hall ltac:(cbn; tauto)) as Htype;
    try pose proof (plain_scalar_in _ "summary" sm Hall ltac:(cbn; tauto)) as Hsummary;
    unfold Utils.parse_string; round_trip Hall.
  all: cbn [app] in Hl; rewrite Hl; clear Hl.
  all: try (repeat constructor; cbn; intuition discriminate).
  all: try (cbn [forallb andb one_line append Ascii.eqb Bool.eqb negb];
            apply plain_facts in Htitle as (Ht & _ & _); rewrite ?Ht;
            try (apply plain_facts in Hsummary as (Hsm & _ & _); rewrite ?Hsm);
            reflexivity).
  all: try reflexivity.
  all: match goal with
       | |- context [strip ?body] => generalize (strip body); intros content
       end.
  all: destruct (plain_facts doc_type Htype) as (_ & _ & c & rest & -> & _).
  all: eexists; split; [reflexivity|]; repeat split.
Qed.

(** X21 at the call of examples/frontmatter_usage.py. *)
Lemma template_round_trip_for_all_witness :
  exists template parsed,
    Utils.create_document_template "RFC" "My New RFC" (Some "vault"%string)
      (Some "author@example.com"%string) (Some "This RFC proposes a new feature"%string)
    = Some template
    /\ Utils.parse_string (Utils.new_DocumentParser None None) template
       = Some (inr parsed)
    /\ Utils.title parsed = PyStr "My New RFC"
    /\ Utils.contributors parsed = PyList [PyStr "author@example.com"].
Proof.
  eexists.
  destruct (template_round_trip_for_all
              "RFC" "My New RFC" (Some "vault"%string)
              (Some "author@example.com"%string)
              (Some "This RFC proposes a new feature"%string) _ eq_refl)
    as (parsed & Hp & Ht & _ & _ & _ & _ & Hc).
  exists parsed. split; [reflexivity|]. split; [exact Hp|]. split; [exact Ht | exact Hc].
Defined.

End TemplateRoundTrip.
